(** * Shape-spec resolution and validation in prettytensor

    A shallow embedding of the arithmetic and validation code of
    [prettytensor/pretty_tensor_methods.py]: [_infer_unknown_dims],
    the static part of [reshape], [_check_split_dims] with its callers
    [split] and [unzip], and [dropout].

    Python integers are [Z].  A tensor shape, as [get_shape().as_list()]
    gives it, is a [list (option Z)] whose unknown dimensions are [None].
    Exceptions are values of the type [exn], threaded through the error
    monad [py]. *)

From Stdlib Require Import ZArith Lia.
From stdpp Require Import base tactics option list numbers.

Local Open Scope Z_scope.

(** ** Exceptions *)

(** The [ValueError]s this module raises itself, one constructor per
    message. *)
Inductive value_error : Type :=
  | ExceedsInputShape (i : nat)   (* '%d exceeds the input shape' % i *)
  | OnlyOneUnknown                (* 'Only one unknown value ... is allowed: %s' *)
  | CannotBeReshaped              (* 'Input (%s) cannot be reshaped to %s.' *)
  | SplitDimOutOfBounds           (* 'split_dim out of bounds: %d  %s' *)
  | MustDivideEvenly.             (* 'Failure to split ... Must divide ... evenly' *)

(** The exceptions an operation of this file can end with: the module's
    own [ValueError]s and those the interpreter raises for [%], [/],
    indexing and string formatting. *)
Inductive exn : Type :=
  | ValueError (m : value_error)
  | TypeError
  | IndexError
  | ZeroDivisionError
  | OverflowError.

Inductive py (A : Type) : Type :=
  | Return (a : A)
  | Raise (e : exn).
Arguments Return {A} a.
Arguments Raise {A} e.

Definition bind {A B : Type} (c : py A) (k : A -> py B) : py B :=
  match c with
  | Return a => k a
  | Raise e => Raise e
  end.

Notation "x <-- c ;; k" := (bind c (fun x => k))
  (at level 100, c at next level, right associativity).
Notation "c ;;; k" := (bind c (fun _ => k))
  (at level 100, right associativity).

(** ** Python primitives *)

(** [a % b] on integers: floored, the sign of the divisor, and
    [ZeroDivisionError] for [b = 0].  [Z.modulo] is the floored remainder. *)
Definition py_mod (a b : Z) : py Z :=
  if b =? 0 then Raise ZeroDivisionError else Return (a mod b).

(** [l[i]] for an index that is not negative. *)
Definition getitem {A : Type} (l : list A) (i : nat) : py A :=
  match l !! i with
  | Some x => Return x
  | None => Raise IndexError
  end.

(** [l[i] = x] for an index that is not negative. *)
Definition setitem {A : Type} (l : list A) (i : nat) (x : A) : py (list A) :=
  if (i <? length l)%nat then Return (<[i:=x]> l) else Raise IndexError.

(** [l[i]] for any integer index: a negative one counts from the end. *)
Definition getitem_int {A : Type} (l : list A) (i : Z) : py A :=
  let n := Z.of_nat (length l) in
  if 0 <=? i then getitem l (Z.to_nat i)
  else if 0 <=? n + i then getitem l (Z.to_nat (n + i))
  else Raise IndexError.

(** [enumerate(l, start)] *)
Fixpoint enumerate_from {A : Type} (start : nat) (l : list A) : list (nat * A) :=
  match l with
  | [] => []
  | x :: l' => (start, x) :: enumerate_from (S start) l'
  end.

Definition enumerate {A : Type} (l : list A) : list (nat * A) :=
  enumerate_from 0 l.

(** [for x in xs: body], the loop variables held in a state [S]; an
    exception leaves the loop. *)
Fixpoint for_in {S A : Type} (xs : list A) (body : S -> A -> py S) (st : S)
  : py S :=
  match xs with
  | [] => Return st
  | x :: xs' => st' <-- body st x ;; for_in xs' body st'
  end.

(** [p = 1; for x in l: p *= x] *)
Definition product (l : list Z) : Z := fold_left Z.mul l 1.

(** The binary64 float nearest to the integer [q] (ties to even), as an
    integer again; [OverflowError] when it is out of the floats' range.
    Integers of at most 53 bits are floats themselves. *)
Definition round_binary64 (q : Z) : py Z :=
  let a := Z.abs q in
  let e := Z.log2 a - 52 in
  if e <=? 0 then Return q
  else
    let m := Z.shiftr a e in
    let r := a - Z.shiftl m e in
    let half := Z.shiftl 1 (e - 1) in
    let m' := if (half <? r) || ((r =? half) && Z.odd m) then m + 1 else m in
    let v := Z.shiftl m' e in
    if 2 ^ 1024 <=? v then Raise OverflowError else Return (Z.sgn q * v).

(** [int(a / b)] under [from __future__ import division], where [b]
    divides [a]: the quotient is the integer [a / b], CPython's true
    division rounds it correctly to a float, and [int] of that float is
    exact. *)
Definition int_true_div (a b : Z) : py Z :=
  if b =? 0 then Raise ZeroDivisionError else round_binary64 (a / b).

(** ** Shape specs *)

(** An entry of a shape spec: [DIM_SAME] ('_'), [DIM_REST] ('*'), [None]
    or an integer.  In the compact string syntax a digit stands for its
    integer.  An entry of another type, which [int(s)] may refuse, has no
    counterpart here. *)
Inductive spec_entry : Type :=
  | DIM_SAME
  | DIM_REST
  | SpecNone
  | SpecInt (x : Z).

(** A shape spec is a list or a tuple of entries.  A compact string made
    of '_', '*' and digits behaves as the list of its entries.  A spec
    that cannot be iterated (a tensor, for which [enumerate] raises the
    [TypeError] that [reshape] catches) has no counterpart here: the
    properties below are about specs that are sequences of markers and
    integers. *)
Inductive seq_kind : Type := PyList | PyTuple.

Record shape_spec : Type := ShapeSpec {
  spec_kind : seq_kind;
  spec_items : list spec_entry
}.

(** An element of the resolved list: an integer, or [DIM_SAME] where an
    unknown input dimension is copied. *)
Inductive res_entry : Type :=
  | ResInt (x : Z)
  | ResSame.

(** [s == DIM_SAME] *)
Definition is_same (s : spec_entry) : bool :=
  match s with
  | DIM_SAME => true
  | _ => false
  end.

(** [s in (DIM_REST, -1, None)] *)
Definition is_wildcard (s : spec_entry) : bool :=
  match s with
  | DIM_SAME => false
  | DIM_REST => true
  | SpecNone => true
  | SpecInt x => x =? -1
  end.

(** ['... %s' % shape_spec], a format with one placeholder: a tuple on
    the right of [%] is the argument list itself, so it must hold exactly
    one element; a list is one argument. *)
Definition format_spec (spec : shape_spec) : py unit :=
  match spec_kind spec with
  | PyList => Return tt
  | PyTuple =>
      if (length (spec_items spec) =? 1)%nat then Return tt else Raise TypeError
  end.

(** ** [_infer_unknown_dims] *)

(** [x if x else 0] *)
Definition numerator_element (x : option Z) : Z :=
  match x with
  | Some v => if v =? 0 then 0 else v
  | None => 0
  end.

(** The variables of the loop over [enumerate(shape_spec)]. *)
Record loop_state : Type := LoopState {
  numerator_elements : list Z;
  denominator : Z;
  unknowns : nat;
  result : list res_entry
}.

(** One turn of the loop, for the pair [(i, s)] of [enumerate(shape_spec)]:
    [s == DIM_SAME], else [s in (DIM_REST, -1, None)], else [int(s)]. *)
Definition loop_body (old_shape : list (option Z)) (st : loop_state)
    (item : nat * spec_entry) : py loop_state :=
  let '(i, s) := item in
  let unknown :=
    Return (LoopState (numerator_elements st) (denominator st)
                      (S (unknowns st)) (result st ++ [ResInt (-1)])) in
  match s with
  | DIM_SAME =>
      if (length old_shape <=? i)%nat then
        Raise (ValueError (ExceedsInputShape i))
      else
        d <-- getitem old_shape i ;;
        let r := match d with
                 | None => ResSame
                 | Some v => ResInt v
                 end in
        ne <-- setitem (numerator_elements st) i 1 ;;
        Return (LoopState ne (denominator st) (unknowns st) (result st ++ [r]))
  | DIM_REST | SpecNone => unknown
  | SpecInt x =>
      if x =? -1 then unknown
      else
        Return (LoopState (numerator_elements st) (denominator st * x)
                          (unknowns st) (result st ++ [ResInt x]))
  end.

Definition initial_state (old_shape : list (option Z)) : loop_state :=
  LoopState (map numerator_element old_shape) 1 0 [].

(** The loop of [_infer_unknown_dims] alone. *)
Definition run_loop (old_shape : list (option Z)) (items : list spec_entry)
  : py loop_state :=
  for_in (enumerate items) (loop_body old_shape) (initial_state old_shape).

(** [numerator]: the product of [numerator_elements] after the loop. *)
Definition numerator (st : loop_state) : Z := product (numerator_elements st).

(** [unknown_elements if x == -1 else x] *)
Definition fill_unknown (unknown_elements : Z) (x : res_entry) : res_entry :=
  match x with
  | ResInt v => if v =? -1 then ResInt unknown_elements else x
  | ResSame => x
  end.

(** The checks and the return after the loop. *)
Definition finish (spec : shape_spec) (st : loop_state) : py (list res_entry) :=
  let numerator := numerator st in
  let denominator := denominator st in
  let unknowns := unknowns st in
  (if (1 <? unknowns)%nat then
     format_spec spec ;;; Raise (ValueError OnlyOneUnknown)
   else
     m <-- py_mod numerator denominator ;;
     if negb (m =? 0) then Raise (ValueError CannotBeReshaped)
     else if (unknowns =? 0)%nat && (0 <? numerator)
             && negb (numerator =? denominator)
     then Raise (ValueError CannotBeReshaped)
     else Return tt) ;;;
  if negb (numerator =? 0) && negb (unknowns =? 0)%nat then
    unknown_elements <-- int_true_div numerator denominator ;;
    Return (map (fill_unknown unknown_elements) (result st))
  else
    Return (result st).

Definition _infer_unknown_dims (old_shape : list (option Z)) (spec : shape_spec)
  : py (list res_entry) :=
  st <-- run_loop old_shape (spec_items spec) ;;
  finish spec st.

(** ** [reshape] *)

(** A piece of the shape tensor [reshape] assembles: a constant holding
    a run of consecutive integers, or dimension [i] of the input gathered
    from the graph. *)
Inductive shape_piece : Type :=
  | TfConstant (runner : list Z)
  | TfGatherShape (i : nat).

(** The variables of the loop over [enumerate(new_shape)].  [new_shape]
    is written at the index being visited only, so it is built here in
    order: [None] where the loop stores [None], the integer otherwise. *)
Record reshape_state : Type := ReshapeState {
  new_shape : list (option Z);
  reshape_tensor : list shape_piece;
  runner : list Z
}.

(** [if runner: reshape_tensor.append(tf.constant(runner))] *)
Definition flush_runner (reshape_tensor : list shape_piece) (runner : list Z)
  : list shape_piece :=
  match runner with
  | [] => reshape_tensor
  | _ :: _ => reshape_tensor ++ [TfConstant runner]
  end.

Definition reshape_body (st : reshape_state) (item : nat * res_entry)
  : py reshape_state :=
  let '(i, s) := item in
  match s with
  | ResSame =>
      Return (ReshapeState (new_shape st ++ [None])
                (flush_runner (reshape_tensor st) (runner st) ++ [TfGatherShape i])
                [])
  | ResInt v =>
      Return (ReshapeState
                (new_shape st ++ [if v =? -1 then None else Some v])
                (reshape_tensor st)
                (runner st ++ [v]))
  end.

(** What [reshape] asks of the graph: [tf.reshape] to the assembled shape
    tensor (its pieces concatenated when there is more than one) followed
    by [set_shape(new_shape)], or, when the spec raised a [TypeError],
    [tf.reshape(input_layer, shape_spec)] as it is. *)
Inductive reshape_call : Type :=
  | TfReshape (shape_tensor : list shape_piece) (static_shape : list (option Z))
  | TfReshapeSpec (spec : shape_spec).

Definition reshape (old_shape : list (option Z)) (spec : shape_spec)
  : py reshape_call :=
  match _infer_unknown_dims old_shape spec with
  | Raise TypeError => Return (TfReshapeSpec spec)
  | Raise e => Raise e
  | Return inferred =>
      st <-- for_in (enumerate inferred) reshape_body (ReshapeState [] [] []) ;;
      Return (TfReshape (flush_runner (reshape_tensor st) (runner st))
                        (new_shape st))
  end.

(** ** [flatten] *)

Definition flatten (old_shape : list (option Z)) (preserve_batch : bool)
  : py reshape_call :=
  if preserve_batch then
    reshape old_shape (ShapeSpec PyList [DIM_SAME; SpecInt (-1)])
  else
    reshape old_shape (ShapeSpec PyList [SpecInt (-1)]).

(** ** [split] and [unzip] *)

Definition _check_split_dims (num_splits split_dim : Z) (shape : list (option Z))
  : py unit :=
  if Z.of_nat (length shape) <=? split_dim then
    Raise (ValueError SplitDimOutOfBounds)
  else
    d <-- getitem_int shape split_dim ;;
    match d with
    | None => Raise TypeError          (* None % num_splits *)
    | Some v =>
        m <-- py_mod v num_splits ;;
        if negb (m =? 0) then Raise (ValueError MustDivideEvenly)
        else Return tt
    end.

(** What [split] and [unzip] ask for once the check has passed:
    [tf.split(split_dim, num_splits, input_layer)], and
    [functions.unzip(input_layer, split_dim, shape[split_dim], num_splits)]. *)
Inductive split_call : Type :=
  | TfSplit (split_dim num_splits : Z)
  | FunctionsUnzip (split_dim : Z) (split_size : option Z) (num_splits : Z).

Definition split (shape : list (option Z)) (split_dim num_splits : Z)
  : py split_call :=
  _check_split_dims num_splits split_dim shape ;;;
  Return (TfSplit split_dim num_splits).

Definition unzip (shape : list (option Z)) (split_dim num_splits : Z)
  : py split_call :=
  _check_split_dims num_splits split_dim shape ;;;
  size <-- getitem_int shape split_dim ;;
  Return (FunctionsUnzip split_dim size num_splits).

(** ** [dropout] *)

Section Dropout.

(** [Phase] and its member [Phase.train] come from [pretty_tensor_class];
    [tf.nn.dropout] is the framework's. *)
Context {Layer KeepProb Name Phase : Type} `{EqDecision Phase}.
Variable train : Phase.
Variable tf_nn_dropout : Layer -> KeepProb -> Name -> Layer.

Definition dropout (input_layer : Layer) (keep_prob : KeepProb)
    (phase : Phase) (name : Name) : Layer :=
  if decide (phase = train) then tf_nn_dropout input_layer keep_prob name
  else input_layer.

End Dropout.

(** * Notions for the properties *)

(** ** The loop in closed form *)

(** Whether entry [j] of the spec is a copy-marker. *)
Definition same_at (items : list spec_entry) (j : nat) : bool :=
  match items !! j with
  | Some s => is_same s
  | None => false
  end.

(** The numerator's factors by position: 1 at a copied position, the
    dimension elsewhere, 0 standing for an unknown one. *)
Definition remaining_elements (old_shape : list (option Z))
    (items : list spec_entry) : list Z :=
  imap (fun j d => if same_at items j then 1 else numerator_element d) old_shape.

(** The explicit integers of a spec, in order. *)
Definition explicit_ints (items : list spec_entry) : list Z :=
  omap (fun s => match s with
                 | SpecInt x => if x =? -1 then None else Some x
                 | _ => None
                 end) items.

Fixpoint count_wildcards (items : list spec_entry) : nat :=
  match items with
  | [] => 0
  | s :: items' =>
      ((if is_wildcard s then 1 else 0) + count_wildcards items')%nat
  end.

(** What the loop appends for entry [s] at position [i]. *)
Definition resolve_entry (old_shape : list (option Z)) (i : nat)
    (s : spec_entry) : res_entry :=
  match s with
  | DIM_SAME =>
      match old_shape !! i with
      | Some (Some v) => ResInt v
      | _ => ResSame
      end
  | DIM_REST | SpecNone => ResInt (-1)
  | SpecInt x => ResInt x
  end.

(** The first copy-marker at or after position [k] that lies outside an
    input of rank [n]. *)
Fixpoint first_out_of_range (n k : nat) (items : list spec_entry) : option nat :=
  match items with
  | [] => None
  | s :: items' =>
      if is_same s && (n <=? k)%nat then Some k
      else first_out_of_range n (S k) items'
  end.

(** The state after the loop has run over [items] from position [k]. *)
Definition state_after (old_shape : list (option Z)) (k : nat)
    (items : list spec_entry) (st : loop_state) : loop_state :=
  LoopState
    (imap (fun j x => if (k <=? j)%nat && same_at items (j - k) then 1 else x)
          (numerator_elements st))
    (denominator st * product (explicit_ints items))
    (unknowns st + count_wildcards items)
    (result st ++ imap (fun j s => resolve_entry old_shape (k + j) s) items).

(** The state the loop ends in when no copy-marker is out of range. *)
Definition loop_result (old_shape : list (option Z)) (items : list spec_entry)
  : loop_state :=
  LoopState (remaining_elements old_shape items)
            (product (explicit_ints items))
            (count_wildcards items)
            (imap (resolve_entry old_shape) items).


(** ** The numerator as the spec words it *)

(** The numerator as the spec words it: the product of the dimensions not
    marked for copying, with 1 in place of an unknown dimension. *)
Definition described_element (x : option Z) : Z :=
  match x with
  | Some v => v
  | None => 1
  end.

Definition described_numerator (old_shape : list (option Z))
    (items : list spec_entry) : Z :=
  product (imap (fun j d => if same_at items j then 1 else described_element d)
                old_shape).

(** ** Products of dimensions *)

(** The size a dimension has when the graph runs: the declared one, or
    [u i] for an unknown dimension at position [i] of the input. *)
Definition dim_value (u : nat -> Z) (i : nat) (d : option Z) : Z :=
  match d with
  | Some v => v
  | None => u i
  end.

Definition shape_product (u : nat -> Z) (old_shape : list (option Z)) : Z :=
  product (imap (dim_value u) old_shape).

(** [DIM_SAME] at position [i] of the result stands for dimension [i] of
    the input. *)
Definition res_value (u : nat -> Z) (i : nat) (r : res_entry) : Z :=
  match r with
  | ResInt v => v
  | ResSame => u i
  end.

Definition resolved_product (u : nat -> Z) (res : list res_entry) : Z :=
  product (imap (res_value u) res).

(** Every entry is a copy-marker or a concrete integer. *)
Definition fully_specified (items : list spec_entry) : Prop :=
  Forall (fun s => is_wildcard s = false) items.

Definition entry_value (u : nat -> Z) (old_shape : list (option Z)) (j : nat)
    (s : spec_entry) : Z :=
  res_value u j (resolve_entry old_shape j s).

Definition known_remaining (u : nat -> Z) (old_shape : list (option Z))
    (items : list spec_entry) : list Z :=
  imap (fun j d => if same_at items j then 1 else dim_value u j d) old_shape.

(** ** Shapes and shape tensors *)

(** A declared dimension is a size: unknown, or not negative. *)
Definition valid_dim (d : option Z) : Prop :=
  match d with
  | Some v => 0 <= v
  | None => True
  end.

Definition valid_shape (shape : list (option Z)) : Prop := Forall valid_dim shape.

(** The dimension [reshape] declares for an element of the resolved
    list: unknown for [DIM_SAME] and for -1. *)
Definition static_dim (r : res_entry) : option Z :=
  match r with
  | ResSame => None
  | ResInt v => if v =? -1 then None else Some v
  end.

(** The elements of the resolved list a piece of the shape tensor stands
    for. *)
Definition piece_entries (p : shape_piece) : list res_entry :=
  match p with
  | TfConstant runner => map ResInt runner
  | TfGatherShape _ => [ResSame]
  end.

Fixpoint shape_entries (pieces : list shape_piece) : list res_entry :=
  match pieces with
  | [] => []
  | p :: pieces' => piece_entries p ++ shape_entries pieces'
  end.

(** Every gathered dimension [i] stands at position [i], counting the
    entries from [k]. *)
Fixpoint gathers_in_place (k : nat) (pieces : list shape_piece) : bool :=
  match pieces with
  | [] => true
  | TfConstant runner :: pieces' => gathers_in_place (k + length runner) pieces'
  | TfGatherShape i :: pieces' => (i =? k)%nat && gathers_in_place (S k) pieces'
  end.

Definition is_constant (p : shape_piece) : bool :=
  match p with
  | TfConstant _ => true
  | TfGatherShape _ => false
  end.

(** No constant is empty and no two constants are neighbours: each
    constant is a whole run of consecutive integers. *)
Fixpoint maximal_runs (pieces : list shape_piece) : bool :=
  match pieces with
  | [] => true
  | TfGatherShape _ :: pieces' => maximal_runs pieces'
  | TfConstant runner :: pieces' =>
      match runner with
      | [] => false
      | _ :: _ =>
          match pieces' with
          | TfConstant _ :: _ => false
          | _ => maximal_runs pieces'
          end
      end
  end.

(** The last piece, if there is one, is no constant. *)
Fixpoint no_trailing_constant (pieces : list shape_piece) : bool :=
  match pieces with
  | [] => true
  | p :: pieces' =>
      match pieces' with
      | [] => negb (is_constant p)
      | _ :: _ => no_trailing_constant pieces'
      end
  end.

(** What holds of the variables of [reshape]'s loop before it visits
    position [k]. *)
Definition reshape_invariant (k : nat) (st : reshape_state) : Prop :=
  gathers_in_place 0 (reshape_tensor st) = true /\
  (length (shape_entries (reshape_tensor st)) + length (runner st))%nat = k /\
  maximal_runs (reshape_tensor st) = true /\
  no_trailing_constant (reshape_tensor st) = true.

(** ** Products with a wildcard *)

(** What a spec entry contributes to the product of the resolved
    dimensions once the wildcards hold [q]. *)
Definition filled_value (q : Z) (u : nat -> Z) (old_shape : list (option Z))
    (j : nat) (s : spec_entry) : Z :=
  res_value u j (fill_unknown q (resolve_entry old_shape j s)).

(** [q] for each wildcard of the spec. *)
Definition wildcard_factors (q : Z) (items : list spec_entry) : list Z :=
  map (fun s => if is_wildcard s then q else 1) items.

(** ** Case analysis of the checks after the loop *)

Ltac finish_cases :=
  unfold finish, py_mod, int_true_div;
  repeat (match goal with
          | |- context [(?a <? ?b)%nat] => destruct (Nat.ltb_spec a b)
          | |- context [(?a =? ?b)%nat] => destruct (Nat.eqb_spec a b)
          | |- context [Z.eqb ?a ?b] => destruct (Z.eqb_spec a b)
          | |- context [Z.ltb ?a ?b] => destruct (Z.ltb_spec a b)
          end; cbn [bind negb andb]).

(** * Properties *)

(** ** The error monad *)

Lemma bind_Return {A B : Type} (c : py A) (k : A -> py B) (b : B) :
  bind c k = Return b -> exists a, c = Return a /\ k a = Return b.
Proof. destruct c as [a|e]; simpl; [eauto | discriminate]. Qed.

(** ** Products *)

Lemma fold_left_mul (l : list Z) (a : Z) :
  fold_left Z.mul l a = a * product l.
Proof.
  unfold product. revert a.
  induction l as [|x l IH]; intros a; simpl.
  - lia.
  - rewrite (IH (a * x)), (IH (1 * x)). lia.
Qed.

Lemma product_nil : product [] = 1.
Proof. reflexivity. Qed.

Lemma product_cons (x : Z) (l : list Z) : product (x :: l) = x * product l.
Proof. unfold product at 1. simpl. rewrite fold_left_mul. lia. Qed.

Lemma product_zero (l : list Z) (i : nat) :
  l !! i = Some 0 -> product l = 0.
Proof.
  revert i. induction l as [|x l IH]; intros [|i] H; simplify_eq/=.
  - rewrite product_cons. lia.
  - rewrite product_cons, (IH i H). lia.
Qed.

Lemma product_pos (l : list Z) :
  Forall (fun x => 0 < x) l -> 0 < product l.
Proof.
  induction 1 as [|x l Hx _ IH].
  - rewrite product_nil. lia.
  - rewrite product_cons. lia.
Qed.

(** ** The loop in closed form *)

Lemma same_at_cons (s : spec_entry) (items : list spec_entry) (j : nat) :
  same_at (s :: items) (S j) = same_at items j.
Proof. reflexivity. Qed.

Lemma explicit_ints_cons (s : spec_entry) (items : list spec_entry) :
  explicit_ints (s :: items) =
  match s with
  | SpecInt x => if x =? -1 then explicit_ints items else x :: explicit_ints items
  | _ => explicit_ints items
  end.
Proof.
  unfold explicit_ints. destruct s as [| | |x]; try reflexivity.
  simpl. by destruct (x =? -1).
Qed.

Lemma loop_state_eq (ne ne' : list Z) (dn dn' : Z) (un un' : nat)
    (rs rs' : list res_entry) :
  ne = ne' -> dn = dn' -> un = un' -> rs = rs' ->
  LoopState ne dn un rs = LoopState ne' dn' un' rs'.
Proof. by intros -> -> -> ->. Qed.

Lemma copied_from_shift (s : spec_entry) (items : list spec_entry) (k j : nat) :
  j <> k \/ is_same s = false ->
  (S k <=? j)%nat && same_at items (j - S k)
  = (k <=? j)%nat && same_at (s :: items) (j - k).
Proof.
  intros H.
  destruct (Nat.leb_spec (S k) j) as [H1|H1];
    destruct (Nat.leb_spec k j) as [H2|H2]; try lia; cbn [andb].
  - replace (j - k)%nat with (S (j - S k)) by lia. by rewrite same_at_cons.
  - assert (j = k) as -> by lia. destruct H as [H|H]; [done|].
    rewrite Nat.sub_diag. unfold same_at. cbn. by rewrite H.
Qed.

Lemma for_in_loop_body (old_shape : list (option Z)) (items : list spec_entry) :
  forall (k : nat) (st : loop_state),
    length (numerator_elements st) = length old_shape ->
    for_in (enumerate_from k items) (loop_body old_shape) st =
    match first_out_of_range (length old_shape) k items with
    | Some i => Raise (ValueError (ExceedsInputShape i))
    | None => Return (state_after old_shape k items st)
    end.
Proof.
  induction items as [|s items IH]; intros k st Hlen.
  - simpl. f_equal. destruct st as [ne dn un rs]. unfold state_after; simpl.
    apply loop_state_eq.
    + apply list_eq; intros j. rewrite list_lookup_imap.
      destruct (ne !! j); simpl; [|done].
      unfold same_at. rewrite lookup_nil. by rewrite andb_false_r.
    + rewrite product_nil. lia.
    + lia.
    + by rewrite app_nil_r.
  - assert (Hstep : forall st1,
      length (numerator_elements st1) = length old_shape ->
      first_out_of_range (length old_shape) k (s :: items)
        = first_out_of_range (length old_shape) (S k) items ->
      state_after old_shape (S k) items st1 = state_after old_shape k (s :: items) st ->
      loop_body old_shape st (k, s) = Return st1 ->
      for_in (enumerate_from k (s :: items)) (loop_body old_shape) st =
      match first_out_of_range (length old_shape) k (s :: items) with
      | Some i => Raise (ValueError (ExceedsInputShape i))
      | None => Return (state_after old_shape k (s :: items) st)
      end).
    { intros st1 Hlen1 Hfirst Hstate Hbody.
      cbn [enumerate_from for_in]. rewrite Hbody. cbn [bind].
      rewrite (IH (S k) st1 Hlen1), Hfirst, Hstate. done. }
    assert (Hne : forall (ne : list Z), is_same s = false ->
      imap (fun j x => if (S k <=? j)%nat && same_at items (j - S k) then 1 else x) ne
      = imap (fun j x => if (k <=? j)%nat && same_at (s :: items) (j - k) then 1 else x) ne).
    { intros ne Hs. apply imap_ext; intros j x _.
      by rewrite (copied_from_shift s) by auto. }
    assert (Hres : forall r, r = resolve_entry old_shape k s ->
      (result st ++ [r]) ++ imap (fun j s => resolve_entry old_shape (S k + j) s) items
      = result st ++ imap (fun j s => resolve_entry old_shape (k + j) s) (s :: items)).
    { intros r ->. rewrite <- app_assoc. f_equal. simpl. rewrite Nat.add_0_r.
      f_equal. apply imap_ext; intros j x _. simpl. f_equal. lia. }
    destruct s as [| | |x].
    + (* DIM_SAME *)
      destruct (length old_shape <=? k)%nat eqn:Hk.
      * cbn [enumerate_from for_in loop_body first_out_of_range is_same andb].
        rewrite Hk. reflexivity.
      * apply Nat.leb_gt in Hk.
        destruct (lookup_lt_is_Some_2 old_shape k Hk) as [d Hd].
        apply (Hstep (LoopState (<[k:=1]> (numerator_elements st)) (denominator st)
                        (unknowns st)
                        (result st ++ [resolve_entry old_shape k DIM_SAME]))).
        -- simpl. by rewrite length_insert.
        -- simpl. destruct (length old_shape <=? k)%nat eqn:E; [|done].
           apply Nat.leb_le in E; lia.
        -- unfold state_after; cbn [numerator_elements denominator unknowns result].
      apply loop_state_eq.
           ++ apply list_eq; intros j. rewrite !list_lookup_imap.
              destruct (decide (j = k)) as [->|Hjk].
              ** rewrite list_lookup_insert_eq by lia.
                 destruct (lookup_lt_is_Some_2 (numerator_elements st) k) as [y Hy];
                   [lia|]. rewrite Hy. cbn [fmap option_fmap option_map].
                 rewrite Nat.sub_diag, Nat.leb_refl. unfold same_at at 2. cbn.
                 by destruct (_ && _).
              ** rewrite list_lookup_insert_ne by done.
                 destruct (numerator_elements st !! j) as [y|]; [|done].
                 cbn [fmap option_fmap option_map]. f_equal.
                 by rewrite (copied_from_shift DIM_SAME) by auto.
           ++ cbn [explicit_ints omap]. done.
           ++ cbn [count_wildcards is_wildcard]. lia.
           ++ by apply Hres.
        -- cbn [loop_body]. destruct (length old_shape <=? k)%nat eqn:E;
             [apply Nat.leb_le in E; lia|].
           unfold getitem. rewrite Hd. cbn [bind]. unfold setitem.
           destruct (k <? length (numerator_elements st))%nat eqn:E2;
             [|apply Nat.ltb_ge in E2; lia].
           cbn [bind]. do 2 f_equal. unfold resolve_entry. rewrite Hd.
           by destruct d.
    + (* DIM_REST *)
      apply (Hstep (LoopState (numerator_elements st) (denominator st)
                      (S (unknowns st)) (result st ++ [ResInt (-1)]))); try done.
      unfold state_after; cbn [numerator_elements denominator unknowns result].
      apply loop_state_eq.
      * by apply Hne.
      * done.
      * cbn. lia.
      * by apply Hres.
    + (* None *)
      apply (Hstep (LoopState (numerator_elements st) (denominator st)
                      (S (unknowns st)) (result st ++ [ResInt (-1)]))); try done.
      unfold state_after; cbn [numerator_elements denominator unknowns result].
      apply loop_state_eq.
      * by apply Hne.
      * done.
      * cbn. lia.
      * by apply Hres.
    + (* an integer *)
      destruct (x =? -1) eqn:Hx.
      * apply Z.eqb_eq in Hx; subst x.
        apply (Hstep (LoopState (numerator_elements st) (denominator st)
                        (S (unknowns st)) (result st ++ [ResInt (-1)]))); try done.
        unfold state_after; cbn [numerator_elements denominator unknowns result].
      apply loop_state_eq.
        -- by apply Hne.
        -- done.
        -- cbn. lia.
        -- by apply Hres.
      * apply (Hstep (LoopState (numerator_elements st) (denominator st * x)
                        (unknowns st) (result st ++ [ResInt x]))); try done.
        -- unfold state_after; cbn [numerator_elements denominator unknowns result].
      apply loop_state_eq.
           ++ by apply Hne.
           ++ rewrite explicit_ints_cons, Hx, product_cons. lia.
           ++ cbn [count_wildcards is_wildcard]. rewrite Hx. lia.
           ++ by apply Hres.
        -- cbn [loop_body]. by rewrite Hx.
Qed.

Lemma same_at_true (items : list spec_entry) (j : nat) :
  same_at items j = true <-> items !! j = Some DIM_SAME.
Proof.
  unfold same_at. destruct (items !! j) as [[| | |x]|]; simpl; split; congruence.
Qed.

Lemma same_at_false (items : list spec_entry) (j : nat) :
  same_at items j = false <-> items !! j <> Some DIM_SAME.
Proof.
  rewrite <- same_at_true. destruct (same_at items j); split; congruence.
Qed.

(** The loop raises at the first copy-marker outside the input shape. *)
Lemma first_out_of_range_Some (n : nat) (items : list spec_entry) :
  forall (k i : nat),
    first_out_of_range n k items = Some i ->
    (k <= i)%nat /\ (n <= i)%nat /\ same_at items (i - k) = true /\
    forall j, same_at items j = true -> (n <= k + j)%nat -> (i <= k + j)%nat.
Proof.
  induction items as [|s items IH]; intros k i H; [done|].
  cbn [first_out_of_range] in H.
  destruct (is_same s) eqn:Hs; cbn [andb] in H.
  - destruct (Nat.leb_spec n k) as [Hk|Hk].
    + injection H as <-. rewrite Nat.sub_diag. unfold same_at. cbn.
      repeat split; try lia; try done.
    + destruct (IH _ _ H) as (H1 & H2 & H3 & H4).
      repeat split; try lia.
      * replace (i - k)%nat with (S (i - S k)) by lia. by rewrite same_at_cons.
      * intros [|j] Hj Hn; [lia|]. rewrite same_at_cons in Hj.
        specialize (H4 j Hj). lia.
  - destruct (IH _ _ H) as (H1 & H2 & H3 & H4).
    repeat split; try lia.
    + replace (i - k)%nat with (S (i - S k)) by lia. by rewrite same_at_cons.
    + intros [|j] Hj Hn.
      * unfold same_at in Hj. cbn in Hj. congruence.
      * rewrite same_at_cons in Hj. specialize (H4 j Hj). lia.
Qed.

Lemma first_out_of_range_None (n : nat) (items : list spec_entry) :
  forall (k : nat),
    first_out_of_range n k items = None <->
    forall j, same_at items j = true -> (k + j < n)%nat.
Proof.
  induction items as [|s items IH]; intros k.
  - split; [|done]. intros _ j Hj. unfold same_at in Hj.
    by rewrite lookup_nil in Hj.
  - cbn [first_out_of_range]. split.
    + intros H [|j] Hj.
      * unfold same_at in Hj. cbn in Hj. rewrite Hj in H. cbn [andb] in H.
        destruct (Nat.leb_spec n k); [done|lia].
      * rewrite same_at_cons in Hj.
        destruct (is_same s && (n <=? k)%nat); [done|].
        apply (proj1 (IH (S k))) with (j := j) in H; [lia|done].
    + intros H.
      destruct (is_same s) eqn:Hs; cbn [andb].
      * assert (k + 0 < n)%nat as Hk by (apply H; unfold same_at; by cbn).
        destruct (Nat.leb_spec n k); [lia|].
        apply IH. intros j Hj. specialize (H (S j)).
        rewrite same_at_cons in H. specialize (H Hj). lia.
      * apply IH. intros j Hj. specialize (H (S j)).
        rewrite same_at_cons in H. specialize (H Hj). lia.
Qed.

Lemma run_loop_eq (old_shape : list (option Z)) (items : list spec_entry) :
  run_loop old_shape items =
  match first_out_of_range (length old_shape) 0 items with
  | Some i => Raise (ValueError (ExceedsInputShape i))
  | None => Return (loop_result old_shape items)
  end.
Proof.
  unfold run_loop, enumerate.
  rewrite for_in_loop_body by (cbn; by rewrite length_map).
  destruct (first_out_of_range _ _ _); [done|]. f_equal.
  unfold state_after, loop_result, initial_state, remaining_elements.
  cbn [numerator_elements denominator unknowns result].
  apply loop_state_eq.
  - change (map numerator_element old_shape) with (numerator_element <$> old_shape).
    rewrite imap_fmap. apply imap_ext; intros j d _. cbn.
    by rewrite Nat.sub_0_r.
  - lia.
  - lia.
  - done.
Qed.

Lemma run_loop_Return (old_shape : list (option Z)) (items : list spec_entry)
    (st : loop_state) :
  run_loop old_shape items = Return st ->
  st = loop_result old_shape items /\
  forall j, items !! j = Some DIM_SAME -> (j < length old_shape)%nat.
Proof.
  rewrite run_loop_eq.
  destruct (first_out_of_range _ _ _) eqn:E; [done|]. intros [= <-].
  split; [done|]. intros j Hj.
  apply (proj1 (first_out_of_range_None _ _ _) E j), same_at_true, Hj.
Qed.

Lemma run_loop_in_range (old_shape : list (option Z)) (items : list spec_entry) :
  (forall j, items !! j = Some DIM_SAME -> (j < length old_shape)%nat) ->
  run_loop old_shape items = Return (loop_result old_shape items).
Proof.
  intros H. rewrite run_loop_eq.
  rewrite (proj2 (first_out_of_range_None (length old_shape) items 0)); [done|].
  intros j Hj. apply same_at_true in Hj. by apply H.
Qed.

(** The only exception of the loop is the out-of-range copy-marker. *)
Lemma run_loop_Raise (old_shape : list (option Z)) (items : list spec_entry)
    (e : exn) :
  run_loop old_shape items = Raise e ->
  exists i, e = ValueError (ExceedsInputShape i) /\
            items !! i = Some DIM_SAME /\ (length old_shape <= i)%nat.
Proof.
  rewrite run_loop_eq.
  destruct (first_out_of_range _ _ _) as [i|] eqn:E; [|done]. intros [= <-].
  exists i. apply first_out_of_range_Some in E as (_ & H2 & H3 & _).
  rewrite Nat.sub_0_r in H3. apply same_at_true in H3. done.
Qed.

(** ** Division *)

(** Integers of magnitude up to 2^53 pass through the float unchanged. *)
Lemma round_binary64_exact (q : Z) :
  Z.abs q <= 2 ^ 53 -> round_binary64 q = Return q.
Proof.
  intros Hq. unfold round_binary64.
  destruct (Z.leb_spec (Z.log2 (Z.abs q) - 52) 0) as [He|He]; [done|].
  assert (2 ^ 53 <= Z.abs q) as Hge.
  { destruct (Z.le_gt_cases (2 ^ 53) (Z.abs q)) as [H|H]; [done|].
    assert (0 < Z.abs q) as Hpos.
    { destruct (Z.eq_dec (Z.abs q) 0) as [E|E]; [|lia].
      rewrite E in He. cbn in He. lia. }
    apply Z.log2_lt_pow2 in H; lia. }
  assert (Z.abs q = 2 ^ 53) as Ha by lia.
  destruct (Z.abs_spec q) as [[_ E]|[_ E]]; rewrite E in Ha.
  - rewrite Ha. vm_compute. reflexivity.
  - assert (q = - 2 ^ 53) as -> by lia. vm_compute. reflexivity.
Qed.

Lemma int_true_div_exact (a b : Z) :
  b <> 0 -> Z.abs (a / b) <= 2 ^ 53 -> int_true_div a b = Return (a / b).
Proof.
  intros Hb Hq. unfold int_true_div.
  destruct (Z.eqb_spec b 0); [done|]. by apply round_binary64_exact.
Qed.

(** ** The checks after the loop *)

Lemma finish_Return (spec : shape_spec) (st : loop_state) (res : list res_entry) :
  finish spec st = Return res ->
  (unknowns st <= 1)%nat /\
  denominator st <> 0 /\
  numerator st mod denominator st = 0 /\
  (unknowns st = 0%nat -> 0 < numerator st -> numerator st = denominator st) /\
  (((numerator st = 0 \/ unknowns st = 0%nat) /\ res = result st) \/
   (numerator st <> 0 /\ unknowns st = 1%nat /\
    exists q, int_true_div (numerator st) (denominator st) = Return q /\
              res = map (fill_unknown q) (result st))).
Proof.
  unfold finish.
  destruct (Nat.ltb_spec 1 (unknowns st)) as [Hu|Hu].
  { destruct (format_spec spec); discriminate. }
  unfold py_mod. destruct (Z.eqb_spec (denominator st) 0) as [Hd|Hd]; [done|].
  cbn [bind].
  destruct (Z.eqb_spec (numerator st mod denominator st) 0) as [Hm|Hm];
    cbn [negb]; [|done].
  destruct (Nat.eqb_spec (unknowns st) 0) as [Hu0|Hu0];
    destruct (Z.ltb_spec 0 (numerator st)) as [Hn|Hn];
    destruct (Z.eqb_spec (numerator st) (denominator st)) as [Hnd|Hnd];
    destruct (Z.eqb_spec (numerator st) 0) as [Hn0|Hn0];
    cbn [andb negb bind]; try done; try lia;
    try (intros [= <-]; repeat split; try lia; try done; left; split; [auto|done]).
  all: destruct (int_true_div (numerator st) (denominator st)) as [q|e] eqn:Hq;
    cbn [bind]; [|done]; intros [= <-];
    repeat split; try lia; try done;
    right; repeat split; try lia; eauto.
Qed.

Lemma finish_not_size_mismatch_of_zero (spec : shape_spec) (st : loop_state) :
  numerator st = 0 -> finish spec st <> Raise (ValueError CannotBeReshaped).
Proof.
  intros Hn. unfold finish. rewrite Hn.
  destruct (1 <? unknowns st)%nat.
  { destruct (format_spec spec) as [[]|e] eqn:Hf; cbn [bind]; [done|].
    unfold format_spec in Hf. destruct (spec_kind spec); [done|].
    destruct (_ =? _)%nat; congruence. }
  unfold py_mod. destruct (Z.eqb_spec (denominator st) 0) as [Hd|Hd]; [done|].
  cbn [bind]. rewrite Z.mod_0_l by done.
  cbn. rewrite andb_false_r. cbn. done.
Qed.

(** With more than one wildcard the checks end in the wildcard error, or
    in the [TypeError] of formatting its message for a tuple. *)
Lemma finish_many_unknowns (spec : shape_spec) (st : loop_state) :
  (2 <= unknowns st)%nat -> (2 <= length (spec_items spec))%nat ->
  finish spec st =
  match spec_kind spec with
  | PyList => Raise (ValueError OnlyOneUnknown)
  | PyTuple => Raise TypeError
  end.
Proof.
  intros Hu Hl. unfold finish.
  destruct (Nat.ltb_spec 1 (unknowns st)); [|lia].
  unfold format_spec. destruct (spec_kind spec); [done|].
  destruct (Nat.eqb_spec (length (spec_items spec)) 1); [lia|done].
Qed.

Lemma finish_not_only_one (spec : shape_spec) (st : loop_state) :
  (unknowns st <= 1)%nat -> finish spec st <> Raise (ValueError OnlyOneUnknown).
Proof.
  intros Hu. unfold finish.
  destruct (Nat.ltb_spec 1 (unknowns st)); [lia|].
  destruct (py_mod _ _) as [m|e] eqn:Hm; cbn [bind].
  - destruct (negb (m =? 0)); cbn [bind]; [done|].
    destruct (_ && _ && _); cbn [bind]; [done|].
    destruct (_ && _); [|done].
    unfold int_true_div, round_binary64.
    repeat (match goal with |- context [if ?b then _ else _] => destruct b end;
            cbn [bind]; try done).
  - unfold py_mod in Hm. destruct (_ =? _); congruence.
Qed.

Lemma count_wildcards_length (items : list spec_entry) :
  (count_wildcards items <= length items)%nat.
Proof.
  induction items as [|s items IH]; cbn; [lia|]. destruct (is_wildcard s); lia.
Qed.

(** ** Wildcards *)

Lemma resolve_entry_wildcard (old_shape : list (option Z)) (i : nat)
    (s : spec_entry) :
  is_wildcard s = true -> resolve_entry old_shape i s = ResInt (-1).
Proof.
  destruct s as [| | |x]; cbn; try done. intros Hx. apply Z.eqb_eq in Hx. by subst.
Qed.





(** More than one wildcard: the loop's own error if a copy-marker is out
    of range, else the wildcard error for a list and the formatting
    [TypeError] for a tuple. *)
Lemma infer_many_wildcards (old_shape : list (option Z)) (spec : shape_spec) :
  (2 <= count_wildcards (spec_items spec))%nat ->
  (exists i, _infer_unknown_dims old_shape spec
             = Raise (ValueError (ExceedsInputShape i))) \/
  _infer_unknown_dims old_shape spec =
  match spec_kind spec with
  | PyList => Raise (ValueError OnlyOneUnknown)
  | PyTuple => Raise TypeError
  end.
Proof.
  intros Hc. unfold _infer_unknown_dims. rewrite run_loop_eq.
  destruct (first_out_of_range _ _ _) as [i|]; cbn [bind]; [left; eauto|right].
  apply finish_many_unknowns; cbn [unknowns loop_result]; [done|].
  pose proof (count_wildcards_length (spec_items spec)). lia.
Qed.

(** X7: a list (or compact string) with more than one wildcard always
    ends in a [ValueError]. *)
Lemma infer_many_wildcards_list (old_shape : list (option Z))
    (items : list spec_entry) :
  (2 <= count_wildcards items)%nat ->
  exists m, _infer_unknown_dims old_shape (ShapeSpec PyList items)
            = Raise (ValueError m).
Proof.
  intros Hc.
  destruct (infer_many_wildcards old_shape (ShapeSpec PyList items) Hc)
    as [[i Hi]|H]; [by exists (ExceedsInputShape i)|by exists OnlyOneUnknown].
Qed.

(** X8: with at most one wildcard the wildcard error is never raised. *)
Lemma infer_few_wildcards (old_shape : list (option Z)) (spec : shape_spec) :
  (count_wildcards (spec_items spec) <= 1)%nat ->
  _infer_unknown_dims old_shape spec <> Raise (ValueError OnlyOneUnknown).
Proof.
  intros Hc. unfold _infer_unknown_dims. rewrite run_loop_eq.
  destruct (first_out_of_range _ _ _) as [i|]; cbn [bind]; [done|].
  by apply finish_not_only_one.
Qed.

(** C3: a shape spec given as a tuple with two wildcards: formatting the
    message of the wildcard error fails, so [_infer_unknown_dims] raises
    a [TypeError] in place of the [ValueError], and [reshape], which
    catches [TypeError], hands the spec to [tf.reshape] as it is. *)
Theorem two_wildcards_in_a_tuple :
  _infer_unknown_dims [Some 4; Some 6] (ShapeSpec PyTuple [SpecInt (-1); SpecInt (-1)])
  = Raise TypeError /\
  reshape [Some 4; Some 6] (ShapeSpec PyTuple [SpecInt (-1); SpecInt (-1)])
  = Return (TfReshapeSpec (ShapeSpec PyTuple [SpecInt (-1); SpecInt (-1)])) /\
  _infer_unknown_dims [Some 4; Some 6] (ShapeSpec PyList [SpecInt (-1); SpecInt (-1)])
  = Raise (ValueError OnlyOneUnknown).
Proof. repeat split; vm_compute; reflexivity. Qed.



(** ** Copy-markers *)

(** C5: a copy-marker at an index at or beyond the rank of the input
    makes [_infer_unknown_dims] raise the [ValueError] '... exceeds the
    input shape', reported for the first such index. *)
Theorem copy_marker_beyond_rank_raises (old_shape : list (option Z))
    (spec : shape_spec) (i : nat) :
  spec_items spec !! i = Some DIM_SAME ->
  (length old_shape <= i)%nat ->
  exists j, (j <= i)%nat /\
            spec_items spec !! j = Some DIM_SAME /\
            (length old_shape <= j)%nat /\
            _infer_unknown_dims old_shape spec
            = Raise (ValueError (ExceedsInputShape j)).
Proof.
  intros Hi Hlen. unfold _infer_unknown_dims. rewrite run_loop_eq.
  destruct (first_out_of_range (length old_shape) 0 (spec_items spec))
    as [j|] eqn:E.
  - exists j. apply first_out_of_range_Some in E as (_ & H2 & H3 & H4).
    rewrite Nat.sub_0_r in H3. apply same_at_true in H3.
    repeat split; try done.
    apply (H4 i); [by apply same_at_true|lia].
  - apply (proj1 (first_out_of_range_None _ _ _)) with (j := i) in E;
      [lia|by apply same_at_true].
Qed.

Lemma copy_marker_beyond_rank_raises_witness :
  let old_shape := [Some 5] in
  let spec := ShapeSpec PyList [SpecInt 5; DIM_SAME; DIM_SAME] in
  spec_items spec !! 2%nat = Some DIM_SAME /\
  (length old_shape <= 2)%nat /\
  exists j, (j <= 2)%nat /\
            spec_items spec !! j = Some DIM_SAME /\
            (length old_shape <= j)%nat /\
            _infer_unknown_dims old_shape spec
            = Raise (ValueError (ExceedsInputShape j)).
Proof.
  split; [reflexivity|]. split; [cbn; lia|].
  apply (copy_marker_beyond_rank_raises [Some 5]
           (ShapeSpec PyList [SpecInt 5; DIM_SAME; DIM_SAME]) 2);
    [reflexivity|cbn; lia].
Defined.

(** C4: where the spec holds a copy-marker at an index within the input
    shape and the input dimension there is known (a size [d], so not
    negative), the resolved list holds [d] at that index. *)
Theorem copy_marker_resolves_to_input (old_shape : list (option Z))
    (spec : shape_spec) (res : list res_entry) (i : nat) (d : Z) :
  _infer_unknown_dims old_shape spec = Return res ->
  spec_items spec !! i = Some DIM_SAME ->
  old_shape !! i = Some (Some d) ->
  0 <= d ->
  res !! i = Some (ResInt d).
Proof.
  intros Hres Hi Hd Hpos. unfold _infer_unknown_dims in Hres.
  apply bind_Return in Hres as (st & Hrun & Hfin).
  apply run_loop_Return in Hrun as [-> _].
  assert (result (loop_result old_shape (spec_items spec)) !! i = Some (ResInt d))
    as Hr.
  { cbn [result loop_result]. rewrite list_lookup_imap, Hi. cbn. by rewrite Hd. }
  apply finish_Return in Hfin as (_ & _ & _ & _ & [[_ ->]|(_ & _ & q & _ & ->)]).
  - done.
  - rewrite list_lookup_fmap, Hr. cbn.
    destruct (Z.eqb_spec d (-1)); [lia|done].
Qed.

Lemma copy_marker_resolves_to_input_witness :
  let old_shape := [Some 4; Some 3; Some 7] in
  let spec := ShapeSpec PyList [DIM_SAME; DIM_REST] in
  _infer_unknown_dims old_shape spec = Return [ResInt 4; ResInt 21] /\
  [ResInt 4; ResInt 21] !! 0%nat = Some (ResInt 4).
Proof.
  split; [reflexivity|].
  apply (copy_marker_resolves_to_input [Some 4; Some 3; Some 7]
           (ShapeSpec PyList [DIM_SAME; DIM_REST]) [ResInt 4; ResInt 21] 0 4);
    [reflexivity|reflexivity|reflexivity|lia].
Defined.

(** C6: the input shape [None, 3, 7] against the spec [DIM_SAME,
    DIM_REST]: [_infer_unknown_dims] gives [DIM_SAME, 21], and [reshape]
    sets the shape [None, 21], gathering the first dimension from the
    graph. *)
Theorem reshape_none_3_7_copy_rest (kind : seq_kind) :
  _infer_unknown_dims [None; Some 3; Some 7] (ShapeSpec kind [DIM_SAME; DIM_REST])
  = Return [ResSame; ResInt 21] /\
  reshape [None; Some 3; Some 7] (ShapeSpec kind [DIM_SAME; DIM_REST])
  = Return (TfReshape [TfGatherShape 0; TfConstant [21]] [None; Some 21]).
Proof. destruct kind; split; vm_compute; reflexivity. Qed.

(** ** Unknown and zero dimensions *)

(** C8: an unknown or zero input dimension at a position the spec does
    not mark for copying makes the numerator 0, and then
    [_infer_unknown_dims] never raises the size-mismatch error 'Input
    (...) cannot be reshaped to ...', whatever the explicit integers. *)
Theorem unknown_dim_disables_size_check (old_shape : list (option Z))
    (spec : shape_spec) (j : nat) (d : option Z) :
  old_shape !! j = Some d ->
  d = None \/ d = Some 0 ->
  spec_items spec !! j <> Some DIM_SAME ->
  (forall st, run_loop old_shape (spec_items spec) = Return st -> numerator st = 0) /\
  _infer_unknown_dims old_shape spec <> Raise (ValueError CannotBeReshaped).
Proof.
  intros Hj Hd Hs.
  assert (forall st, run_loop old_shape (spec_items spec) = Return st ->
                     numerator st = 0) as Hzero.
  { intros st Hrun. apply run_loop_Return in Hrun as [-> _].
    unfold numerator. cbn [numerator_elements loop_result].
    apply (product_zero _ j). unfold remaining_elements.
    rewrite list_lookup_imap, Hj. cbn.
    rewrite (proj2 (same_at_false _ _) Hs). by destruct Hd as [->| ->]. }
  split; [done|].
  unfold _infer_unknown_dims.
  destruct (run_loop old_shape (spec_items spec)) as [st|e] eqn:Hrun; cbn [bind].
  - apply finish_not_size_mismatch_of_zero. by apply Hzero.
  - apply run_loop_Raise in Hrun as (i & -> & _). done.
Qed.

Lemma unknown_dim_disables_size_check_witness :
  let old_shape := [None; Some 3] in
  let spec := ShapeSpec PyList [SpecInt 7; SpecInt 2] in
  let st := LoopState [0; 3] 14 0 [ResInt 7; ResInt 2] in
  old_shape !! 0%nat = Some None /\
  spec_items spec !! 0%nat <> Some DIM_SAME /\
  run_loop old_shape (spec_items spec) = Return st /\
  numerator st = 0 /\
  _infer_unknown_dims old_shape spec <> Raise (ValueError CannotBeReshaped).
Proof.
  split; [reflexivity|]. split; [discriminate|]. split; [reflexivity|].
  pose proof (unknown_dim_disables_size_check [None; Some 3]
                (ShapeSpec PyList [SpecInt 7; SpecInt 2]) 0 None
                eq_refl (or_introl eq_refl) ltac:(discriminate)) as [H1 H2].
  split; [|exact H2].
  apply (H1 (LoopState [0; 3] 14 0 [ResInt 7; ResInt 2])). reflexivity.
Defined.

(** ** The numerator, the denominator and the wildcard *)

Lemma finish_one_unknown (spec : shape_spec) (st : loop_state) :
  unknowns st = 1%nat ->
  numerator st <> 0 ->
  denominator st <> 0 ->
  numerator st mod denominator st = 0 ->
  Z.abs (numerator st / denominator st) <= 2 ^ 53 ->
  finish spec st =
  Return (map (fill_unknown (numerator st / denominator st)) (result st)).
Proof.
  intros Hu Hn Hd Hm Hq. unfold finish. rewrite Hu. cbn [Nat.ltb Nat.leb].
  unfold py_mod. destruct (Z.eqb_spec (denominator st) 0); [done|].
  cbn [bind]. rewrite Hm. cbn [Z.eqb negb Nat.eqb andb bind].
  destruct (Z.eqb_spec (numerator st) 0); [done|]. cbn [negb andb].
  rewrite int_true_div_exact by done. done.
Qed.

(** C2, as the code has it: the numerator is the product of the input
    dimensions not marked for copying with 0 (not 1) in place of an
    unknown dimension, the denominator is the product of the explicit
    integers, and with one wildcard, a nonzero numerator and a nonzero
    denominator dividing it, the wildcard resolves to numerator /
    denominator (for a quotient of magnitude up to 2^53, which the float
    division gives exactly). *)
Theorem numerator_denominator_wildcard (old_shape : list (option Z))
    (spec : shape_spec) (st : loop_state) :
  run_loop old_shape (spec_items spec) = Return st ->
  numerator st = product (remaining_elements old_shape (spec_items spec)) /\
  denominator st = product (explicit_ints (spec_items spec)) /\
  (unknowns st = 1%nat ->
   numerator st <> 0 ->
   denominator st <> 0 ->
   numerator st mod denominator st = 0 ->
   Z.abs (numerator st / denominator st) <= 2 ^ 53 ->
   exists res,
     _infer_unknown_dims old_shape spec = Return res /\
     forall i s, spec_items spec !! i = Some s -> is_wildcard s = true ->
                 res !! i = Some (ResInt (numerator st / denominator st))).
Proof.
  intros Hrun. pose proof Hrun as Hrun'.
  apply run_loop_Return in Hrun' as [-> _].
  split; [done|]. split; [done|].
  intros Hu Hn Hd Hm Hq.
  eexists. split.
  - unfold _infer_unknown_dims. rewrite Hrun. cbn [bind].
    by apply finish_one_unknown.
  - intros i s Hi Hs. cbn [result loop_result].
    rewrite list_lookup_fmap, list_lookup_imap, Hi. cbn.
    by rewrite resolve_entry_wildcard.
Qed.

Lemma numerator_denominator_wildcard_witness :
  let old_shape := [Some 4; Some 6] in
  let spec := ShapeSpec PyList [SpecInt 2; SpecInt (-1)] in
  let st := LoopState [4; 6] 2 1 [ResInt 2; ResInt (-1)] in
  run_loop old_shape (spec_items spec) = Return st /\
  numerator st = product (remaining_elements old_shape (spec_items spec)) /\
  denominator st = product (explicit_ints (spec_items spec)) /\
  exists res,
    _infer_unknown_dims old_shape spec = Return res /\
    forall i s, spec_items spec !! i = Some s -> is_wildcard s = true ->
                res !! i = Some (ResInt 12).
Proof.
  split; [reflexivity|].
  pose proof (numerator_denominator_wildcard [Some 4; Some 6]
                (ShapeSpec PyList [SpecInt 2; SpecInt (-1)])
                (LoopState [4; 6] 2 1 [ResInt 2; ResInt (-1)]) eq_refl)
    as (H1 & H2 & H3).
  split; [exact H1|]. split; [exact H2|].
  apply H3.
  - reflexivity.
  - vm_compute. discriminate.
  - vm_compute. discriminate.
  - reflexivity.
  - vm_compute. discriminate.
Defined.

(** C2 as stated fails: for the input shape [None, 3, 7] and the spec
    [DIM_REST] the numerator is 0, not 3 * 7 with 1 for the unknown
    dimension, and the wildcard stays -1. *)
Lemma numerator_of_unknown_dim_is_zero :
  let old_shape := [None; Some 3; Some 7] in
  let st := LoopState [0; 3; 7] 1 1 [ResInt (-1)] in
  run_loop old_shape [DIM_REST] = Return st /\
  numerator st = 0 /\
  described_numerator old_shape [DIM_REST] = 21 /\
  _infer_unknown_dims old_shape (ShapeSpec PyList [DIM_REST]) = Return [ResInt (-1)].
Proof. repeat split; vm_compute; reflexivity. Qed.

(** ** Products of dimensions *)

Lemma resolved_product_resolve (u : nat -> Z) (old_shape : list (option Z))
    (items : list spec_entry) :
  resolved_product u (imap (resolve_entry old_shape) items)
  = product (imap (entry_value u old_shape) items).
Proof.
  unfold resolved_product. f_equal. apply list_eq; intros j.
  rewrite !list_lookup_imap. by destruct (items !! j).
Qed.

Lemma fully_specified_count (items : list spec_entry) :
  fully_specified items -> count_wildcards items = 0%nat.
Proof. induction 1 as [|s items Hs _ IH]; cbn; [done|]. rewrite Hs. lia. Qed.

Lemma products_split (items : list spec_entry) :
  forall (old_shape : list (option Z)) (u : nat -> Z),
    (forall j, same_at items j = true -> (j < length old_shape)%nat) ->
    fully_specified items ->
    product (imap (entry_value u old_shape) items)
    * product (known_remaining u old_shape items)
    = shape_product u old_shape * product (explicit_ints items).
Proof.
  induction items as [|s items IH]; intros old_shape u Hrange Hfull.
  - unfold known_remaining, shape_product.
    change (explicit_ints []) with (@nil Z). cbn [imap].
    rewrite product_nil.
    rewrite (imap_ext _ (dim_value u) old_shape); [lia|].
    intros j d _. unfold same_at. by rewrite lookup_nil.
  - inversion Hfull as [|? ? Hs Hfull']; subst.
    rewrite explicit_ints_cons.
    destruct old_shape as [|d o].
    + assert (forall j, same_at items j = true -> (j < length (@nil (option Z)))%nat)
        as Hrange'.
      { intros j Hj. specialize (Hrange (S j)). rewrite same_at_cons in Hrange.
        specialize (Hrange Hj). cbn in Hrange. lia. }
      specialize (IH [] (u ∘ S) Hrange' Hfull').
      unfold known_remaining, shape_product in *. cbn [imap] in *.
      rewrite product_nil in *.
      rewrite product_cons.
      rewrite (imap_ext _ (entry_value (u ∘ S) []) items) by done.
      destruct s as [| | |x]; try done.
      * specialize (Hrange 0%nat eq_refl). cbn in Hrange. lia.
      * cbn in Hs. rewrite Hs. rewrite product_cons.
        unfold entry_value at 1. cbn. lia.
    + assert (forall j, same_at items j = true -> (j < length o)%nat) as Hrange'.
      { intros j Hj. specialize (Hrange (S j)). rewrite same_at_cons in Hrange.
        specialize (Hrange Hj). cbn in Hrange. lia. }
      specialize (IH o (u ∘ S) Hrange' Hfull').
      unfold known_remaining, shape_product in *. cbn [imap].
      rewrite !product_cons.
      rewrite (imap_ext _ (entry_value (u ∘ S) o) items) by done.
      rewrite (imap_ext ((fun j d0 => if same_at (s :: items) j then 1
                                      else dim_value u j d0) ∘ S)
                        (fun j d0 => if same_at items j then 1
                                     else dim_value (u ∘ S) j d0) o) by done.
      change (imap (dim_value u ∘ S) o) with (imap (dim_value (u ∘ S)) o).
      set (R := product (imap (entry_value (u ∘ S) o) items)) in *.
      set (N := product (imap _ o)) in *.
      set (P := product (imap (dim_value (u ∘ S)) o)) in *.
      destruct s as [| | |x]; try done.
      * unfold entry_value at 1. unfold same_at. cbn.
        transitivity (dim_value u 0 d * (R * N)).
        { destruct d; cbn; ring. }
        rewrite IH. ring.
      * cbn in Hs. rewrite Hs, product_cons.
        unfold entry_value at 1. unfold same_at. cbn.
        transitivity (x * dim_value u 0 d * (R * N)); [ring|].
        rewrite IH. ring.
Qed.

(** C1, as the code has it: for a spec of copy-markers and concrete
    integers, and an input whose dimensions outside the copied positions
    are all known and positive, the product of the resolved dimensions is
    the product of the input dimensions, whatever sizes [u] the copied
    unknown dimensions have. *)
Theorem product_preserved (old_shape : list (option Z)) (spec : shape_spec)
    (res : list res_entry) (u : nat -> Z) :
  fully_specified (spec_items spec) ->
  (forall j d, old_shape !! j = Some d ->
               spec_items spec !! j <> Some DIM_SAME ->
               exists v, d = Some v /\ 0 < v) ->
  _infer_unknown_dims old_shape spec = Return res ->
  resolved_product u res = shape_product u old_shape.
Proof.
  intros Hfull Hknown Hres. unfold _infer_unknown_dims in Hres.
  apply bind_Return in Hres as (st & Hrun & Hfin).
  apply run_loop_Return in Hrun as [-> Hrange].
  set (items := spec_items spec) in *.
  assert (known_remaining u old_shape items = remaining_elements old_shape items)
    as Hrem.
  { apply imap_ext. intros j d Hj.
    destruct (same_at items j) eqn:Hs; [done|].
    apply same_at_false in Hs. destruct (Hknown j d Hj Hs) as (v & -> & Hv).
    cbn. destruct (Z.eqb_spec v 0); [lia|done]. }
  assert (0 < product (remaining_elements old_shape items)) as Hpos.
  { apply product_pos, Forall_lookup. intros j x Hx.
    unfold remaining_elements in Hx. rewrite list_lookup_imap in Hx.
    destruct (old_shape !! j) as [d|] eqn:Hj; [|done]. cbn in Hx.
    injection Hx as <-.
    destruct (same_at items j) eqn:Hs; [lia|].
    apply same_at_false in Hs. destruct (Hknown j d Hj Hs) as (v & -> & Hv).
    cbn. destruct (Z.eqb_spec v 0); lia. }
  apply finish_Return in Hfin as (_ & _ & _ & Heq & Hcase).
  cbn [unknowns loop_result] in Heq, Hcase.
  rewrite (fully_specified_count items Hfull) in Heq, Hcase.
  specialize (Heq eq_refl Hpos).
  unfold numerator in Heq. cbn [numerator_elements denominator loop_result] in Heq.
  destruct Hcase as [[_ ->]|(_ & ? & _)]; [|done].
  cbn [result loop_result]. rewrite resolved_product_resolve.
  pose proof (products_split items old_shape u) as Hsplit.
  rewrite Hrem, <- Heq in Hsplit.
  apply (Z.mul_reg_r _ _ (product (remaining_elements old_shape items))); [lia|].
  apply Hsplit; [|done].
  intros j Hj. apply Hrange. by apply same_at_true.
Qed.

Lemma product_preserved_witness :
  let old_shape := [None; Some 6] in
  let spec := ShapeSpec PyList [DIM_SAME; SpecInt 2; SpecInt 3] in
  let u := fun _ : nat => 32 in
  _infer_unknown_dims old_shape spec = Return [ResSame; ResInt 2; ResInt 3] /\
  resolved_product u [ResSame; ResInt 2; ResInt 3] = shape_product u old_shape.
Proof.
  split; [reflexivity|].
  apply (product_preserved [None; Some 6]
           (ShapeSpec PyList [DIM_SAME; SpecInt 2; SpecInt 3])).
  - repeat constructor.
  - intros [|[|j]] d Hj Hs; cbn in Hj, Hs; try done.
    injection Hj as <-. exists 6. split; [reflexivity|lia].
  - reflexivity.
Defined.

(** C1 as stated fails: the input shape [None, 3] against the spec [7, 2]
    resolves to [7, 2], whose product 14 is the product of the input for
    no size of the unknown dimension; and the fully known input shape
    [0, 3] resolves to [7, 2] as well. *)
Lemma product_not_preserved_with_unknown_dim :
  let spec := ShapeSpec PyList [SpecInt 7; SpecInt 2] in
  fully_specified (spec_items spec) /\
  _infer_unknown_dims [None; Some 3] spec = Return [ResInt 7; ResInt 2] /\
  (forall u, resolved_product u [ResInt 7; ResInt 2]
             <> shape_product u [None; Some 3]) /\
  _infer_unknown_dims [Some 0; Some 3] spec = Return [ResInt 7; ResInt 2] /\
  (forall u, resolved_product u [ResInt 7; ResInt 2]
             <> shape_product u [Some 0; Some 3]).
Proof.
  split; [repeat constructor|]. split; [reflexivity|]. split.
  { intros u. unfold resolved_product, shape_product, product. cbn. lia. }
  split; [reflexivity|].
  intros u. unfold resolved_product, shape_product, product. cbn. lia.
Qed.

(** ** [split] and [unzip] *)

Lemma check_split_dims_out_of_bounds (num_splits split_dim : Z)
    (shape : list (option Z)) :
  Z.of_nat (length shape) <= split_dim ->
  _check_split_dims num_splits split_dim shape
  = Raise (ValueError SplitDimOutOfBounds).
Proof.
  intros H. unfold _check_split_dims.
  destruct (Z.leb_spec (Z.of_nat (length shape)) split_dim); [done|lia].
Qed.

Lemma check_split_dims_known (num_splits split_dim v : Z)
    (shape : list (option Z)) :
  split_dim < Z.of_nat (length shape) ->
  getitem_int shape split_dim = Return (Some v) ->
  num_splits <> 0 ->
  _check_split_dims num_splits split_dim shape =
  if v mod num_splits =? 0 then Return tt
  else Raise (ValueError MustDivideEvenly).
Proof.
  intros Hlt Hd Hn. unfold _check_split_dims.
  destruct (Z.leb_spec (Z.of_nat (length shape)) split_dim); [lia|].
  rewrite Hd. cbn [bind]. unfold py_mod.
  destruct (Z.eqb_spec num_splits 0); [done|]. cbn [bind].
  by destruct (v mod num_splits =? 0).
Qed.

(** X18: for a call of [split] or [unzip] with a nonzero [num_splits]
    and a known dimension [v] at [split_dim] (when [split_dim] is below
    the rank), a [ValueError] is raised if [split_dim] is at or beyond
    the rank or [v] is not a multiple of [num_splits]; otherwise the
    check passes and the framework's split, or [functions.unzip] with the
    size [v], is called. *)
Theorem split_validation (shape : list (option Z)) (split_dim num_splits v : Z) :
  num_splits <> 0 ->
  (split_dim < Z.of_nat (length shape) ->
   getitem_int shape split_dim = Return (Some v)) ->
  (Z.of_nat (length shape) <= split_dim \/ v mod num_splits <> 0 ->
   exists m, split shape split_dim num_splits = Raise (ValueError m) /\
             unzip shape split_dim num_splits = Raise (ValueError m)) /\
  (split_dim < Z.of_nat (length shape) /\ v mod num_splits = 0 ->
   _check_split_dims num_splits split_dim shape = Return tt /\
   split shape split_dim num_splits = Return (TfSplit split_dim num_splits) /\
   unzip shape split_dim num_splits
   = Return (FunctionsUnzip split_dim (Some v) num_splits)).
Proof.
  intros Hn Hd. unfold split, unzip. split.
  - intros H.
    destruct (Z.le_gt_cases (Z.of_nat (length shape)) split_dim) as [Hge|Hlt].
    + exists SplitDimOutOfBounds.
      by rewrite check_split_dims_out_of_bounds.
    + destruct H as [H|H]; [lia|]. exists MustDivideEvenly.
      rewrite (check_split_dims_known _ _ v) by (auto; lia).
      by destruct (Z.eqb_spec (v mod num_splits) 0).
  - intros [Hlt Hm].
    rewrite (check_split_dims_known _ _ v) by (auto; lia).
    rewrite Hm. cbn [Z.eqb bind]. rewrite Hd by done. done.
Qed.

Lemma split_validation_witness :
  let shape := [None; Some 6] in
  (3 <> 0) /\
  getitem_int shape 1 = Return (Some 6) /\
  (1 < Z.of_nat (length shape) /\ 6 mod 3 = 0) /\
  _check_split_dims 3 1 shape = Return tt /\
  split shape 1 3 = Return (TfSplit 1 3) /\
  unzip shape 1 3 = Return (FunctionsUnzip 1 (Some 6) 3).
Proof.
  split; [discriminate|]. split; [reflexivity|].
  assert (1 < Z.of_nat (length [None; Some 6]) /\ 6 mod 3 = 0) as H
    by (split; reflexivity).
  split; [exact H|].
  apply (proj2 (split_validation [None; Some 6] 1 3 6
                  ltac:(discriminate) (fun _ => eq_refl))).
  exact H.
Defined.

(** C7: on the shape [None, 4], with [split_dim] 0 below the rank, the
    check computes [None % 2]: [split] and [unzip] raise a [TypeError],
    which is neither the [ValueError] of a failed validation nor a check
    that passes.  A [split_dim] below minus the rank ends in the
    [IndexError] of [shape[split_dim]], and [num_splits] 0 in a
    [ZeroDivisionError]. *)
Theorem split_on_unknown_dim :
  0 < Z.of_nat (length [None; Some 4]) /\
  _check_split_dims 2 0 [None; Some 4] = Raise TypeError /\
  split [None; Some 4] 0 2 = Raise TypeError /\
  unzip [None; Some 4] 0 2 = Raise TypeError /\
  split [Some 4; Some 6] (-3) 2 = Raise IndexError /\
  split [Some 4; Some 6] 0 0 = Raise ZeroDivisionError.
Proof. repeat split. Qed.

(** ** [dropout] *)

(** C10: outside the train phase [dropout] returns the input layer
    itself, whatever [keep_prob]; in the train phase it returns what
    [tf.nn.dropout] gives. *)
Theorem dropout_only_in_train {Layer KeepProb Name Phase : Type}
    `{EqDecision Phase} (train : Phase)
    (tf_nn_dropout : Layer -> KeepProb -> Name -> Layer)
    (input_layer : Layer) (keep_prob : KeepProb) (phase : Phase) (name : Name) :
  (phase <> train ->
   dropout train tf_nn_dropout input_layer keep_prob phase name = input_layer) /\
  (phase = train ->
   dropout train tf_nn_dropout input_layer keep_prob phase name
   = tf_nn_dropout input_layer keep_prob name).
Proof.
  unfold dropout. split; intros Hp; by destruct (decide (phase = train)).
Qed.

Lemma dropout_only_in_train_witness :
  false <> true /\
  dropout true (fun (node : nat) (_ : Z) (_ : unit) => S node) 7%nat 1 false tt
  = 7%nat.
Proof.
  split; [discriminate|].
  apply (proj1 (dropout_only_in_train true
                  (fun (node : nat) (_ : Z) (_ : unit) => S node)
                  7%nat 1 false tt)).
  discriminate.
Defined.

(** * Further properties *)

(** ** The loop of [reshape] *)

Lemma shape_entries_app (a b : list shape_piece) :
  shape_entries (a ++ b) = shape_entries a ++ shape_entries b.
Proof.
  induction a as [|p a IH]; [done|]. cbn. by rewrite IH, app_assoc.
Qed.

Lemma shape_entries_flush (pieces : list shape_piece) (r : list Z) :
  shape_entries (flush_runner pieces r) = shape_entries pieces ++ map ResInt r.
Proof.
  destruct r as [|x r]; cbn [flush_runner].
  - by rewrite app_nil_r.
  - rewrite shape_entries_app. cbn. by rewrite app_nil_r.
Qed.

Lemma gathers_in_place_app (a b : list shape_piece) :
  forall k,
    gathers_in_place k (a ++ b)
    = gathers_in_place k a
      && gathers_in_place (k + length (shape_entries a)) b.
Proof.
  induction a as [|p a IH]; intros k.
  - cbn. by rewrite Nat.add_0_r.
  - destruct p as [r|i]; cbn [app gathers_in_place shape_entries piece_entries].
    + rewrite IH, length_app, length_map. f_equal. f_equal. lia.
    + rewrite IH, <- andb_assoc. cbn [app length]. do 3 f_equal. lia.
Qed.

Lemma maximal_runs_app_gather (a : list shape_piece) (i : nat) :
  maximal_runs (a ++ [TfGatherShape i]) = maximal_runs a.
Proof.
  induction a as [|p a IH]; [done|].
  destruct p as [r|j]; cbn [app maximal_runs]; [|done].
  destruct r as [|x r]; [done|].
  destruct a as [|[r'|j] a]; cbn [app] in *; try done.
Qed.

Lemma maximal_runs_app_constant (a : list shape_piece) (x : Z) (r : list Z) :
  maximal_runs (a ++ [TfConstant (x :: r)])
  = maximal_runs a && no_trailing_constant a.
Proof.
  induction a as [|p a IH]; [done|].
  destruct p as [r'|j]; cbn [app maximal_runs no_trailing_constant].
  - destruct r' as [|y r']; [done|].
    destruct a as [|[r''|j] a]; cbn [app] in *; try done.
  - destruct a as [|q a]; [done|]. exact IH.
Qed.

Lemma no_trailing_constant_app_gather (a : list shape_piece) (i : nat) :
  no_trailing_constant (a ++ [TfGatherShape i]) = true.
Proof.
  induction a as [|p a IH]; [done|].
  cbn [app no_trailing_constant].
  destruct a as [|q a]; [done|]. exact IH.
Qed.

Lemma maximal_runs_flush (pieces : list shape_piece) (r : list Z) :
  maximal_runs pieces = true ->
  no_trailing_constant pieces = true ->
  maximal_runs (flush_runner pieces r) = true.
Proof.
  intros H1 H2. destruct r as [|x r]; cbn [flush_runner]; [done|].
  by rewrite maximal_runs_app_constant, H1, H2.
Qed.

Lemma gathers_in_place_flush (pieces : list shape_piece) (r : list Z) :
  gathers_in_place 0 (flush_runner pieces r) = gathers_in_place 0 pieces.
Proof.
  destruct r as [|x r]; cbn [flush_runner]; [done|].
  rewrite gathers_in_place_app. cbn. by rewrite andb_true_r.
Qed.

Lemma reshape_body_invariant (k : nat) (st : reshape_state) (s : res_entry) :
  exists st',
    reshape_body st (k, s) = Return st' /\
    new_shape st' = new_shape st ++ [static_dim s] /\
    shape_entries (reshape_tensor st') ++ map ResInt (runner st')
    = (shape_entries (reshape_tensor st) ++ map ResInt (runner st)) ++ [s] /\
    (reshape_invariant k st -> reshape_invariant (S k) st').
Proof.
  destruct s as [v|]; eexists; (split; [reflexivity|]);
    cbn [new_shape reshape_tensor runner static_dim]; (split; [done|]).
  - split.
    + by rewrite map_app, app_assoc.
    + intros (H1 & H2 & H3 & H4). repeat split; try done.
      cbn [reshape_tensor runner]. rewrite length_app. cbn. lia.
  - split.
    + rewrite shape_entries_app, shape_entries_flush. cbn. by rewrite app_nil_r.
    + intros (H1 & H2 & H3 & H4). unfold reshape_invariant.
      cbn [reshape_tensor runner].
      rewrite gathers_in_place_app, gathers_in_place_flush, H1.
      rewrite maximal_runs_app_gather, no_trailing_constant_app_gather.
      rewrite shape_entries_app, shape_entries_flush, !length_app, length_map.
      repeat split.
      * rewrite Nat.add_0_l, H2. cbn. by rewrite Nat.eqb_refl.
      * cbn. lia.
      * by apply maximal_runs_flush.
Qed.

Lemma for_in_reshape_body (items : list res_entry) :
  forall (k : nat) (st : reshape_state),
  exists st',
    for_in (enumerate_from k items) reshape_body st = Return st' /\
    new_shape st' = new_shape st ++ map static_dim items /\
    shape_entries (reshape_tensor st') ++ map ResInt (runner st')
    = (shape_entries (reshape_tensor st) ++ map ResInt (runner st)) ++ items /\
    (reshape_invariant k st -> reshape_invariant (k + length items) st').
Proof.
  induction items as [|s items IH]; intros k st.
  - exists st. cbn. rewrite !app_nil_r, Nat.add_0_r. done.
  - destruct (reshape_body_invariant k st s) as (st1 & Hb & Hn & He & Hi).
    destruct (IH (S k) st1) as (st' & Hf & Hn' & He' & Hi').
    exists st'. cbn [enumerate_from for_in]. rewrite Hb. cbn [bind].
    split; [done|]. split; [|split].
    + rewrite Hn', Hn. cbn. by rewrite <- app_assoc.
    + rewrite He', He. by rewrite <- app_assoc.
    + intros H. cbn [length]. replace (k + S (length items))%nat
        with (S k + length items)%nat by lia. auto.
Qed.

(** What [reshape] does with the list [_infer_unknown_dims] returns. *)
Lemma reshape_of_inferred (old_shape : list (option Z)) (spec : shape_spec)
    (inferred : list res_entry) :
  _infer_unknown_dims old_shape spec = Return inferred ->
  exists pieces,
    reshape old_shape spec = Return (TfReshape pieces (map static_dim inferred)) /\
    shape_entries pieces = inferred /\
    gathers_in_place 0 pieces = true /\
    maximal_runs pieces = true.
Proof.
  intros Hinf. unfold reshape. rewrite Hinf. unfold enumerate.
  destruct (for_in_reshape_body inferred 0 (ReshapeState [] [] []))
    as (st & Hf & Hn & He & Hi).
  rewrite Hf. cbn [bind]. cbn in Hn, He. rewrite Hn.
  eexists. split; [reflexivity|].
  destruct Hi as (H1 & H2 & H3 & H4); [by repeat split|].
  split; [|split].
  - by rewrite shape_entries_flush.
  - by rewrite gathers_in_place_flush.
  - by apply maximal_runs_flush.
Qed.

(** X9: when [reshape] builds a shape tensor, its pieces read in order
    are the list [_infer_unknown_dims] returned, every gathered dimension
    [i] standing at position [i], and the shape it sets is that list with
    [DIM_SAME] and -1 turned into unknown dimensions. *)
Theorem reshape_shape_tensor (old_shape : list (option Z)) (spec : shape_spec)
    (pieces : list shape_piece) (static : list (option Z)) :
  reshape old_shape spec = Return (TfReshape pieces static) ->
  exists inferred,
    _infer_unknown_dims old_shape spec = Return inferred /\
    shape_entries pieces = inferred /\
    gathers_in_place 0 pieces = true /\
    static = map static_dim inferred.
Proof.
  intros H.
  destruct (_infer_unknown_dims old_shape spec) as [inferred|e] eqn:Hinf.
  - destruct (reshape_of_inferred _ _ _ Hinf) as (pieces' & Hr & H1 & H2 & _).
    rewrite Hr in H. injection H as <- <-. by exists inferred.
  - unfold reshape in H. rewrite Hinf in H. by destruct e.
Qed.

Lemma reshape_shape_tensor_witness :
  let old_shape := [None; Some 4; None; Some 6] in
  let spec := ShapeSpec PyList [SpecInt 2; DIM_SAME; DIM_SAME; SpecInt 12] in
  let pieces := [TfConstant [2; 4]; TfGatherShape 2; TfConstant [12]] in
  reshape old_shape spec
  = Return (TfReshape pieces [Some 2; Some 4; None; Some 12]) /\
  exists inferred,
    _infer_unknown_dims old_shape spec = Return inferred /\
    shape_entries pieces = inferred /\
    gathers_in_place 0 pieces = true /\
    [Some 2; Some 4; None; Some 12] = map static_dim inferred.
Proof.
  split; [reflexivity|].
  apply (reshape_shape_tensor [None; Some 4; None; Some 6]
           (ShapeSpec PyList [SpecInt 2; DIM_SAME; DIM_SAME; SpecInt 12])).
  reflexivity.
Defined.

(** X10: the constants of the shape tensor [reshape] builds are whole
    runs of consecutive integers: none is empty and no two are
    neighbours. *)
Theorem reshape_constants_are_runs (old_shape : list (option Z))
    (spec : shape_spec) (pieces : list shape_piece) (static : list (option Z)) :
  reshape old_shape spec = Return (TfReshape pieces static) ->
  maximal_runs pieces = true.
Proof.
  intros H.
  destruct (_infer_unknown_dims old_shape spec) as [inferred|e] eqn:Hinf.
  - destruct (reshape_of_inferred _ _ _ Hinf) as (pieces' & Hr & _ & _ & H3).
    rewrite Hr in H. by injection H as <- <-.
  - unfold reshape in H. rewrite Hinf in H. by destruct e.
Qed.

Lemma reshape_constants_are_runs_witness :
  let pieces := [TfConstant [2; 4]; TfGatherShape 2; TfConstant [12]] in
  reshape [None; Some 4; None; Some 6]
          (ShapeSpec PyList [SpecInt 2; DIM_SAME; DIM_SAME; SpecInt 12])
  = Return (TfReshape pieces [Some 2; Some 4; None; Some 12]) /\
  maximal_runs pieces = true.
Proof.
  split; [reflexivity|].
  apply (reshape_constants_are_runs [None; Some 4; None; Some 6]
           (ShapeSpec PyList [SpecInt 2; DIM_SAME; DIM_SAME; SpecInt 12])
           _ [Some 2; Some 4; None; Some 12]).
  reflexivity.
Defined.

Lemma map_ResInt_inj (a : list Z) :
  forall b, map ResInt a = map ResInt b -> a = b.
Proof.
  induction a as [|x a IH]; intros [|y b] H; simplify_eq/=; [done|].
  f_equal. by apply IH.
Qed.

Lemma single_run (pieces : list shape_piece) (vs : list Z) :
  shape_entries pieces = map ResInt vs ->
  maximal_runs pieces = true ->
  vs <> [] ->
  pieces = [TfConstant vs].
Proof.
  intros He Hm Hvs.
  assert (forall l, ResSame ∉ map ResInt l) as Hno.
  { intros l Hin. apply list_elem_of_fmap in Hin as (y & Hy & _). done. }
  destruct pieces as [|[r|i] rest]; cbn in He.
  - by destruct vs.
  - destruct r as [|x r]; [done|].
    destruct rest as [|[r'|j] rest]; cbn [maximal_runs] in Hm; try done.
    + cbn in He. rewrite app_nil_r in He.
      f_equal. f_equal. by apply map_ResInt_inj.
    + exfalso. apply (Hno vs). rewrite <- He.
      apply elem_of_app. right. left.
  - exfalso. apply (Hno vs). rewrite <- He. left.
Qed.

(** X11: when the resolved list holds integers only, the shape tensor is
    one constant holding them all, so nothing has to be concatenated. *)
Theorem reshape_known_shape_is_one_constant (old_shape : list (option Z))
    (spec : shape_spec) (vs : list Z) :
  _infer_unknown_dims old_shape spec = Return (map ResInt vs) ->
  vs <> [] ->
  reshape old_shape spec
  = Return (TfReshape [TfConstant vs] (map static_dim (map ResInt vs))).
Proof.
  intros Hinf Hvs.
  destruct (reshape_of_inferred _ _ _ Hinf) as (pieces & Hr & H1 & _ & H3).
  by rewrite Hr, (single_run pieces vs).
Qed.

Lemma reshape_known_shape_is_one_constant_witness :
  let old_shape := [Some 4; Some 6] in
  let spec := ShapeSpec PyList [SpecInt 2; DIM_SAME; SpecInt (-1)] in
  _infer_unknown_dims old_shape spec = Return (map ResInt [2; 6; 2]) /\
  [2; 6; 2] <> [] /\
  reshape old_shape spec
  = Return (TfReshape [TfConstant [2; 6; 2]] [Some 2; Some 6; Some 2]).
Proof.
  split; [reflexivity|]. split; [discriminate|].
  apply (reshape_known_shape_is_one_constant [Some 4; Some 6]
           (ShapeSpec PyList [SpecInt 2; DIM_SAME; SpecInt (-1)]) [2; 6; 2]);
    [reflexivity|discriminate].
Defined.

(** ** What [_infer_unknown_dims] accepts and what it raises *)

Lemma round_binary64_Raise (q : Z) (e : exn) :
  round_binary64 q = Raise e -> e = OverflowError /\ 2 ^ 53 < Z.abs q.
Proof.
  intros H. split.
  - unfold round_binary64 in H.
    repeat (match type of H with
            | context [if ?b then _ else _] => destruct b
            end; try done).
    all: congruence.
  - destruct (Z.le_gt_cases (Z.abs q) (2 ^ 53)) as [Hle|Hgt]; [|lia].
    rewrite round_binary64_exact in H by done. done.
Qed.

Lemma product_eq_0 (l : list Z) : product l = 0 <-> 0 ∈ l.
Proof.
  induction l as [|x l IH].
  - rewrite product_nil. split; [lia|]. by intros ?%elem_of_nil.
  - rewrite product_cons, elem_of_cons, <- IH. lia.
Qed.

Lemma explicit_ints_zero (items : list spec_entry) :
  0 ∈ explicit_ints items <-> exists i, items !! i = Some (SpecInt 0).
Proof.
  induction items as [|s items IH].
  - split; [by intros ?%elem_of_nil|]. by intros [i Hi].
  - rewrite explicit_ints_cons. split.
    + intros H.
      assert (0 ∈ explicit_ints items \/ s = SpecInt 0) as [H' | ->].
      { destruct s as [| | |x]; auto. destruct (Z.eqb_spec x (-1)); auto.
        apply elem_of_cons in H as [<- | H]; auto. }
      * apply IH in H' as [i Hi]. by exists (S i).
      * by exists 0%nat.
    + intros [[|i] Hi]; cbn in Hi.
      * injection Hi as ->. cbn. left.
      * assert (0 ∈ explicit_ints items) as H by (apply IH; eauto).
        destruct s as [| | |x]; auto. destruct (x =? -1); auto. by right.
Qed.

(** X1: the list [_infer_unknown_dims] returns has one element for each
    entry of the spec. *)
Theorem infer_length (old_shape : list (option Z)) (spec : shape_spec)
    (res : list res_entry) :
  _infer_unknown_dims old_shape spec = Return res ->
  length res = length (spec_items spec).
Proof.
  intros Hres. unfold _infer_unknown_dims in Hres.
  apply bind_Return in Hres as (st & Hrun & Hfin).
  apply run_loop_Return in Hrun as [-> _].
  apply finish_Return in Hfin as (_ & _ & _ & _ & [[_ ->]|(_ & _ & q & _ & ->)]);
    cbn [result loop_result]; by rewrite ?length_map, length_imap.
Qed.

Lemma infer_length_witness :
  let old_shape := [None; Some 3; Some 7] in
  let spec := ShapeSpec PyList [DIM_SAME; DIM_REST] in
  _infer_unknown_dims old_shape spec = Return [ResSame; ResInt 21] /\
  length [ResSame; ResInt 21] = length (spec_items spec).
Proof.
  split; [reflexivity|].
  apply (infer_length [None; Some 3; Some 7]
           (ShapeSpec PyList [DIM_SAME; DIM_REST])).
  reflexivity.
Defined.

(** X2: an explicit integer of the spec (other than -1) stands unchanged
    at its position in the list [_infer_unknown_dims] returns. *)
Theorem explicit_int_resolves_to_itself (old_shape : list (option Z))
    (spec : shape_spec) (res : list res_entry) (i : nat) (x : Z) :
  _infer_unknown_dims old_shape spec = Return res ->
  spec_items spec !! i = Some (SpecInt x) ->
  x <> -1 ->
  res !! i = Some (ResInt x).
Proof.
  intros Hres Hi Hx. unfold _infer_unknown_dims in Hres.
  apply bind_Return in Hres as (st & Hrun & Hfin).
  apply run_loop_Return in Hrun as [-> _].
  apply finish_Return in Hfin as (_ & _ & _ & _ & [[_ ->]|(_ & _ & q & _ & ->)]);
    cbn [result loop_result];
    rewrite ?list_lookup_fmap, list_lookup_imap, Hi; cbn; [done|].
  by destruct (Z.eqb_spec x (-1)).
Qed.

Lemma explicit_int_resolves_to_itself_witness :
  let old_shape := [Some 4; Some 6] in
  let spec := ShapeSpec PyList [SpecInt 2; SpecInt (-1)] in
  _infer_unknown_dims old_shape spec = Return [ResInt 2; ResInt 12] /\
  [ResInt 2; ResInt 12] !! 0%nat = Some (ResInt 2).
Proof.
  split; [reflexivity|].
  apply (explicit_int_resolves_to_itself [Some 4; Some 6]
           (ShapeSpec PyList [SpecInt 2; SpecInt (-1)]) _ 0 2);
    [reflexivity|reflexivity|discriminate].
Defined.

Lemma finish_returns (spec : shape_spec) (st : loop_state) :
  (unknowns st <= 1)%nat ->
  denominator st <> 0 ->
  numerator st mod denominator st = 0 ->
  (unknowns st = 0%nat -> 0 < numerator st -> numerator st = denominator st) ->
  (unknowns st = 1%nat -> numerator st <> 0 ->
   exists q, round_binary64 (numerator st / denominator st) = Return q) ->
  exists res, finish spec st = Return res.
Proof.
  intros Hu Hd Hm Heq Hq. finish_cases; try lia; try done; eauto.
  all: try (exfalso; lia).
  all: destruct Hq as [q ->]; [lia|done|]; cbn [bind]; eauto.
Qed.

(** X3: [_infer_unknown_dims] returns exactly when every copy-marker is
    within the input shape, there is at most one wildcard, the
    denominator is not 0 and divides the numerator, a spec without
    wildcard that has a positive numerator has it equal to the
    denominator, and the wildcard's value fits in a float. *)
Theorem infer_accepts (old_shape : list (option Z)) (spec : shape_spec) :
  (exists res, _infer_unknown_dims old_shape spec = Return res) <->
  (forall j, spec_items spec !! j = Some DIM_SAME -> (j < length old_shape)%nat) /\
  (count_wildcards (spec_items spec) <= 1)%nat /\
  product (explicit_ints (spec_items spec)) <> 0 /\
  product (remaining_elements old_shape (spec_items spec))
    mod product (explicit_ints (spec_items spec)) = 0 /\
  (count_wildcards (spec_items spec) = 0%nat ->
   0 < product (remaining_elements old_shape (spec_items spec)) ->
   product (remaining_elements old_shape (spec_items spec))
   = product (explicit_ints (spec_items spec))) /\
  (count_wildcards (spec_items spec) = 1%nat ->
   product (remaining_elements old_shape (spec_items spec)) <> 0 ->
   exists q,
     round_binary64 (product (remaining_elements old_shape (spec_items spec))
                     / product (explicit_ints (spec_items spec))) = Return q).
Proof.
  split.
  - intros [res Hres]. unfold _infer_unknown_dims in Hres.
    apply bind_Return in Hres as (st & Hrun & Hfin).
    apply run_loop_Return in Hrun as [-> Hrange].
    apply finish_Return in Hfin as (H1 & H2 & H3 & H4 & H5).
    repeat split; try done.
    intros Hc Hn. destruct H5 as [[[H|H] _]|(_ & _ & q & Hq & _)]; try done.
    + cbn [unknowns loop_result] in H. lia.
    + exists q. unfold int_true_div in Hq.
      by destruct (Z.eqb_spec (denominator (loop_result old_shape (spec_items spec))) 0).
  - intros (Hrange & H1 & H2 & H3 & H4 & H5). unfold _infer_unknown_dims.
    rewrite run_loop_in_range by done. cbn [bind].
    by apply finish_returns.
Qed.

(** X4: with every copy-marker in range, at most one wildcard and a
    denominator that is not 0, the size-mismatch error 'Input (...)
    cannot be reshaped to ...' is raised exactly when the denominator
    does not divide the numerator, or the spec has no wildcard and a
    positive numerator differs from the denominator. *)
Theorem size_mismatch_raised (old_shape : list (option Z)) (spec : shape_spec) :
  (forall j, spec_items spec !! j = Some DIM_SAME -> (j < length old_shape)%nat) ->
  (count_wildcards (spec_items spec) <= 1)%nat ->
  product (explicit_ints (spec_items spec)) <> 0 ->
  _infer_unknown_dims old_shape spec = Raise (ValueError CannotBeReshaped) <->
  product (remaining_elements old_shape (spec_items spec))
    mod product (explicit_ints (spec_items spec)) <> 0 \/
  (count_wildcards (spec_items spec) = 0%nat /\
   0 < product (remaining_elements old_shape (spec_items spec)) /\
   product (remaining_elements old_shape (spec_items spec))
   <> product (explicit_ints (spec_items spec))).
Proof.
  intros Hrange Hc Hd. unfold _infer_unknown_dims.
  rewrite run_loop_in_range by done. cbn [bind].
  set (st := loop_result old_shape (spec_items spec)).
  change (product (remaining_elements old_shape (spec_items spec)))
    with (numerator st).
  change (product (explicit_ints (spec_items spec))) with (denominator st) in *.
  change (count_wildcards (spec_items spec)) with (unknowns st) in *.
  clearbody st. finish_cases; try lia; try (split; [done|intros [?|?]; lia]);
    try (split; [intros _|done]; auto; right; lia).
  all: destruct (round_binary64 _) as [q|err] eqn:Hq; cbn [bind];
    (split; [|intros [?|?]; lia]); [done|];
    intros [= ->]; by apply round_binary64_Raise in Hq as [? _].
Qed.

Lemma size_mismatch_raised_witness :
  let old_shape := [Some 5] in
  let spec := ShapeSpec PyList [SpecInt 2; SpecInt (-1)] in
  _infer_unknown_dims old_shape spec = Raise (ValueError CannotBeReshaped).
Proof.
  apply (size_mismatch_raised [Some 5] (ShapeSpec PyList [SpecInt 2; SpecInt (-1)])).
  - intros [|[|j]] Hj; discriminate.
  - cbn. lia.
  - vm_compute. discriminate.
  - left. vm_compute. discriminate.
Defined.

(** X5: with every copy-marker in range and at most one wildcard,
    [_infer_unknown_dims] raises [ZeroDivisionError] exactly when the
    spec holds an explicit 0. *)
Theorem explicit_zero_divides_by_zero (old_shape : list (option Z))
    (spec : shape_spec) :
  (forall j, spec_items spec !! j = Some DIM_SAME -> (j < length old_shape)%nat) ->
  (count_wildcards (spec_items spec) <= 1)%nat ->
  _infer_unknown_dims old_shape spec = Raise ZeroDivisionError <->
  exists i, spec_items spec !! i = Some (SpecInt 0).
Proof.
  intros Hrange Hc. rewrite <- explicit_ints_zero, <- product_eq_0.
  unfold _infer_unknown_dims. rewrite run_loop_in_range by done. cbn [bind].
  set (st := loop_result old_shape (spec_items spec)).
  change (product (explicit_ints (spec_items spec))) with (denominator st) in *.
  change (count_wildcards (spec_items spec)) with (unknowns st) in *.
  clearbody st. finish_cases; try lia; try done.
  all: destruct (round_binary64 _) as [q|err] eqn:Hq; cbn [bind];
    (split; [|done]); [done|];
    intros [= ->]; by apply round_binary64_Raise in Hq as [? _].
Qed.

Lemma explicit_zero_divides_by_zero_witness :
  let old_shape := [Some 0; Some 3] in
  let spec := ShapeSpec PyList [SpecInt 0; SpecInt 3] in
  _infer_unknown_dims old_shape spec = Raise ZeroDivisionError.
Proof.
  apply (explicit_zero_divides_by_zero [Some 0; Some 3]
           (ShapeSpec PyList [SpecInt 0; SpecInt 3])).
  - intros [|[|j]] Hj; discriminate.
  - cbn. lia.
  - by exists 0%nat.
Defined.

Lemma remaining_product_zero (old_shape : list (option Z))
    (items : list spec_entry) (j : nat) (d : option Z) :
  old_shape !! j = Some d ->
  d = None \/ d = Some 0 ->
  items !! j <> Some DIM_SAME ->
  product (remaining_elements old_shape items) = 0.
Proof.
  intros Hj Hd Hs. apply (product_zero _ j). unfold remaining_elements.
  rewrite list_lookup_imap, Hj. cbn.
  rewrite (proj2 (same_at_false _ _) Hs). by destruct Hd as [-> | ->].
Qed.

(** X6: with every copy-marker in range, one wildcard, no explicit 0 and
    an unknown or zero input dimension outside the copied positions, the
    call is accepted and the wildcard stays unresolved: -1 in the list
    [_infer_unknown_dims] returns, an unknown dimension in the shape
    [reshape] sets. *)
Theorem unknown_rest_stays_unknown (old_shape : list (option Z))
    (spec : shape_spec) (i j : nat) (s : spec_entry) (d : option Z) :
  (forall k, spec_items spec !! k = Some DIM_SAME -> (k < length old_shape)%nat) ->
  count_wildcards (spec_items spec) = 1%nat ->
  (forall k, spec_items spec !! k <> Some (SpecInt 0)) ->
  spec_items spec !! i = Some s ->
  is_wildcard s = true ->
  old_shape !! j = Some d ->
  d = None \/ d = Some 0 ->
  spec_items spec !! j <> Some DIM_SAME ->
  exists res pieces static,
    _infer_unknown_dims old_shape spec = Return res /\
    res !! i = Some (ResInt (-1)) /\
    reshape old_shape spec = Return (TfReshape pieces static) /\
    static !! i = Some None.
Proof.
  intros Hrange Hc Hz Hi Hs Hj Hd Hns.
  assert (_infer_unknown_dims old_shape spec
          = Return (result (loop_result old_shape (spec_items spec)))) as Hinf.
  { unfold _infer_unknown_dims. rewrite run_loop_in_range by done. cbn [bind].
    assert (numerator (loop_result old_shape (spec_items spec)) = 0) as Hn.
    { by apply (remaining_product_zero old_shape (spec_items spec) j d). }
    assert (denominator (loop_result old_shape (spec_items spec)) <> 0) as Hden.
    { cbn [denominator loop_result]. rewrite product_eq_0, explicit_ints_zero.
      intros [k Hk]. by apply (Hz k). }
    assert (unknowns (loop_result old_shape (spec_items spec)) = 1%nat) as Hu
      by done.
    revert Hn Hden Hu. generalize (loop_result old_shape (spec_items spec)) as st.
    intros st Hn Hden Hu. finish_cases; try lia; try done.
    all: rewrite Hn, Z.mod_0_l in * by done; done. }
  assert (result (loop_result old_shape (spec_items spec)) !! i
          = Some (ResInt (-1))) as Hri.
  { cbn [result loop_result]. rewrite list_lookup_imap, Hi. cbn.
    by rewrite resolve_entry_wildcard. }
  destruct (reshape_of_inferred _ _ _ Hinf) as (pieces & Hr & _).
  eexists _, pieces, _. repeat split; try done.
  by rewrite list_lookup_fmap, Hri.
Qed.

Lemma unknown_rest_stays_unknown_witness :
  let old_shape := [None; Some 3; None] in
  let spec := ShapeSpec PyList [DIM_SAME; DIM_REST] in
  exists res pieces static,
    _infer_unknown_dims old_shape spec = Return res /\
    res !! 1%nat = Some (ResInt (-1)) /\
    reshape old_shape spec = Return (TfReshape pieces static) /\
    static !! 1%nat = Some None.
Proof.
  apply (unknown_rest_stays_unknown [None; Some 3; None]
           (ShapeSpec PyList [DIM_SAME; DIM_REST]) 1 2 DIM_REST None).
  - intros [|[|k]] Hk; cbn in Hk; try discriminate. cbn. lia.
  - reflexivity.
  - intros [|[|k]]; discriminate.
  - reflexivity.
  - reflexivity.
  - reflexivity.
  - by left.
  - discriminate.
Defined.

Lemma infer_many_wildcards_list_witness :
  (2 <= count_wildcards [DIM_REST; SpecNone; SpecInt (-1)])%nat /\
  exists m, _infer_unknown_dims [Some 4; Some 6]
              (ShapeSpec PyList [DIM_REST; SpecNone; SpecInt (-1)])
            = Raise (ValueError m).
Proof.
  assert (2 <= count_wildcards [DIM_REST; SpecNone; SpecInt (-1)])%nat as H
    by (cbn; lia).
  split; [exact H|].
  exact (infer_many_wildcards_list [Some 4; Some 6]
           [DIM_REST; SpecNone; SpecInt (-1)] H).
Defined.

Lemma infer_few_wildcards_witness :
  let spec := ShapeSpec PyTuple [SpecInt 5; DIM_REST] in
  (count_wildcards (spec_items spec) <= 1)%nat /\
  _infer_unknown_dims [Some 4; Some 6] spec <> Raise (ValueError OnlyOneUnknown).
Proof.
  assert (count_wildcards [SpecInt 5; DIM_REST] <= 1)%nat as H by (cbn; lia).
  split; [exact H|].
  exact (infer_few_wildcards [Some 4; Some 6]
           (ShapeSpec PyTuple [SpecInt 5; DIM_REST]) H).
Defined.

Lemma finish_not_index_error (spec : shape_spec) (st : loop_state) :
  finish spec st <> Raise IndexError.
Proof.
  unfold finish.
  destruct (1 <? unknowns st)%nat.
  { unfold format_spec. destruct (spec_kind spec); cbn [bind]; [done|].
    by destruct (_ =? _)%nat. }
  unfold py_mod. destruct (denominator st =? 0) eqn:Hd; cbn [bind]; [done|].
  destruct (negb (numerator st mod denominator st =? 0)); cbn [bind]; [done|].
  destruct (_ && _ && _); cbn [bind]; [done|].
  destruct (_ && _); [|done].
  unfold int_true_div. rewrite Hd.
  destruct (round_binary64 _) as [q|err] eqn:Hq; cbn [bind]; [done|].
  by apply round_binary64_Raise in Hq as [-> _].
Qed.

(** X12: for a spec that is a list or a tuple of [DIM_SAME], [DIM_REST],
    [None] and integers, the indexing of [old_shape] and of
    [numerator_elements] in the loop is always within bounds:
    [_infer_unknown_dims], and [reshape] with it, never ends in an
    [IndexError]. *)
Theorem infer_never_index_error (old_shape : list (option Z)) (spec : shape_spec) :
  _infer_unknown_dims old_shape spec <> Raise IndexError /\
  reshape old_shape spec <> Raise IndexError.
Proof.
  assert (_infer_unknown_dims old_shape spec <> Raise IndexError) as Hinf.
  { unfold _infer_unknown_dims.
    destruct (run_loop old_shape (spec_items spec)) as [st|e] eqn:Hrun;
      cbn [bind].
    - apply finish_not_index_error.
    - apply run_loop_Raise in Hrun as (i & -> & _). done. }
  split; [done|].
  destruct (_infer_unknown_dims old_shape spec) as [inferred|e] eqn:He.
  - destruct (reshape_of_inferred _ _ _ He) as (pieces & -> & _). done.
  - unfold reshape. rewrite He. by destruct e.
Qed.

(** ** [flatten] *)

Lemma product_numerator_nonneg (shape : list (option Z)) :
  valid_shape shape -> 0 <= product (map numerator_element shape).
Proof.
  induction 1 as [|d shape Hd _ IH]; cbn [map].
  - rewrite product_nil. lia.
  - rewrite product_cons. destruct d as [v|]; cbn in *; [|lia].
    destruct (Z.eqb_spec v 0); nia.
Qed.

Lemma finish_one_wildcard (spec : shape_spec) (st : loop_state) :
  unknowns st = 1%nat ->
  denominator st = 1 ->
  0 <= numerator st <= 2 ^ 53 ->
  finish spec st =
  Return (if numerator st =? 0 then result st
          else map (fill_unknown (numerator st)) (result st)).
Proof.
  intros Hu Hd Hn. unfold finish. rewrite Hu, Hd. cbn [Nat.ltb Nat.leb].
  unfold py_mod. cbn [Z.eqb bind]. rewrite Z.mod_1_r. cbn [Z.eqb negb Nat.eqb andb bind].
  destruct (Z.eqb_spec (numerator st) 0) as [H0|H0]; cbn [negb andb]; [done|].
  rewrite int_true_div_exact; rewrite ?Z.div_1_r; try done. lia.
Qed.

Lemma remaining_elements_flatten_batch (d0 : option Z) (rest : list (option Z)) :
  remaining_elements (d0 :: rest) [DIM_SAME; SpecInt (-1)]
  = 1 :: map numerator_element rest.
Proof.
  unfold remaining_elements. cbn [imap]. f_equal.
  rewrite (imap_ext _ (fun _ => numerator_element) rest).
  - apply (imap_const numerator_element).
  - by intros [|[|j]] d _.
Qed.

Lemma remaining_elements_flatten_all (old_shape : list (option Z)) :
  remaining_elements old_shape [SpecInt (-1)] = map numerator_element old_shape.
Proof.
  unfold remaining_elements.
  rewrite (imap_ext _ (fun _ => numerator_element) old_shape).
  - apply (imap_const numerator_element).
  - by intros [|[|j]] d _.
Qed.

(** [flatten] with the batch dimension kept, for a valid shape: [n] is
    the product of the other dimensions, 0 when one is unknown or 0. *)
Lemma flatten_batch_eq (d0 : option Z) (rest : list (option Z)) :
  valid_shape (d0 :: rest) ->
  product (map numerator_element rest) <= 2 ^ 53 ->
  flatten (d0 :: rest) true =
  let n := product (map numerator_element rest) in
  Return (TfReshape
            match d0 with
            | None => [TfGatherShape 0; TfConstant [if n =? 0 then -1 else n]]
            | Some v => [TfConstant [v; if n =? 0 then -1 else n]]
            end
            [d0; if n =? 0 then None else Some n]).
Proof.
  intros Hvalid Hbound.
  inversion Hvalid as [|? ? Hd0 Hrest]; subst.
  pose proof (product_numerator_nonneg rest Hrest) as Hnn.
  set (n := product (map numerator_element rest)) in *.
  assert (_infer_unknown_dims (d0 :: rest) (ShapeSpec PyList [DIM_SAME; SpecInt (-1)])
          = Return [match d0 with Some v => ResInt v | None => ResSame end;
                    ResInt (if n =? 0 then -1 else n)]) as Hinf.
  { unfold _infer_unknown_dims. cbn [spec_items].
    rewrite run_loop_in_range.
    2: { intros [|[|j]] Hj; cbn in Hj; try discriminate. cbn. lia. }
    cbn [bind]. rewrite finish_one_wildcard.
    - unfold numerator. cbn [numerator_elements loop_result result].
      rewrite remaining_elements_flatten_batch, product_cons, Z.mul_1_l.
      fold n. clearbody n.
      destruct (Z.eqb_spec n 0) as [H0|H0]; [by destruct d0|].
      destruct d0 as [v|]; cbn; [|done].
      cbn in Hd0. destruct (Z.eqb_spec v (-1)); [lia|done].
    - done.
    - done.
    - unfold numerator. cbn [numerator_elements loop_result].
      rewrite remaining_elements_flatten_batch, product_cons, Z.mul_1_l.
      fold n. lia. }
  unfold flatten, reshape. rewrite Hinf. cbv zeta. clearbody n.
  destruct (Z.eqb_spec n 0) as [H0|H0].
  - destruct d0 as [v|]; cbn; [|done].
    cbn in Hd0. destruct (Z.eqb_spec v (-1)); [lia|done].
  - destruct d0 as [v|]; cbn.
    + cbn in Hd0. destruct (Z.eqb_spec v (-1)); [lia|].
      destruct (Z.eqb_spec n (-1)); [lia|done].
    + destruct (Z.eqb_spec n (-1)); [lia|done].
Qed.

(** [flatten] of all dimensions, for a valid shape. *)
Lemma flatten_all_eq (old_shape : list (option Z)) :
  valid_shape old_shape ->
  product (map numerator_element old_shape) <= 2 ^ 53 ->
  flatten old_shape false =
  let n := product (map numerator_element old_shape) in
  Return (TfReshape [TfConstant [if n =? 0 then -1 else n]]
                    [if n =? 0 then None else Some n]).
Proof.
  intros Hvalid Hbound.
  pose proof (product_numerator_nonneg old_shape Hvalid) as Hnn.
  set (n := product (map numerator_element old_shape)) in *.
  assert (_infer_unknown_dims old_shape (ShapeSpec PyList [SpecInt (-1)])
          = Return [ResInt (if n =? 0 then -1 else n)]) as Hinf.
  { unfold _infer_unknown_dims. cbn [spec_items].
    rewrite run_loop_in_range.
    2: { intros [|[|j]] Hj; cbn in Hj; discriminate. }
    cbn [bind]. rewrite finish_one_wildcard.
    - unfold numerator. cbn [numerator_elements loop_result result].
      rewrite remaining_elements_flatten_all. fold n. clearbody n.
      by destruct (Z.eqb_spec n 0).
    - done.
    - done.
    - unfold numerator. cbn [numerator_elements loop_result].
      rewrite remaining_elements_flatten_all. fold n. lia. }
  unfold flatten, reshape. rewrite Hinf. cbv zeta. clearbody n.
  destruct (Z.eqb_spec n 0) as [H0|H0]; cbn; [done|].
  destruct (Z.eqb_spec n (-1)); [lia|done].
Qed.

Lemma numerator_elements_positive (dims : list Z) :
  Forall (fun x => 0 < x) dims ->
  map numerator_element (map Some dims) = dims.
Proof.
  induction 1 as [|x l Hx _ IH]; [done|]. cbn [map]. rewrite IH. cbn.
  destruct (Z.eqb_spec x 0); [lia|done].
Qed.

Lemma valid_shape_positive (dims : list Z) :
  Forall (fun x => 0 < x) dims -> valid_shape (map Some dims).
Proof.
  induction 1 as [|x l Hx _ IH]; constructor; [cbn; lia|done].
Qed.

Lemma numerator_product_unknown (shape : list (option Z)) :
  None ∈ shape -> product (map numerator_element shape) = 0.
Proof.
  intros Hin. apply list_elem_of_lookup in Hin as [j Hj].
  apply (product_zero _ j).
  change (map numerator_element shape) with (numerator_element <$> shape).
  by rewrite list_lookup_fmap, Hj.
Qed.

(** X13: [flatten] keeps the first dimension, known or not, and makes the
    second the product of the other dimensions when they are all known
    and positive (the product up to 2^53), and unknown when one of them
    is unknown. *)
Theorem flatten_preserve_batch (d0 : option Z) :
  valid_dim d0 ->
  (forall dims,
     Forall (fun x => 0 < x) dims ->
     product dims <= 2 ^ 53 ->
     exists pieces,
       flatten (d0 :: map Some dims) true
       = Return (TfReshape pieces [d0; Some (product dims)])) /\
  (forall rest,
     valid_shape rest ->
     None ∈ rest ->
     exists pieces,
       flatten (d0 :: rest) true = Return (TfReshape pieces [d0; None])).
Proof.
  intros Hd0. split.
  - intros dims Hpos Hbound.
    pose proof (product_pos dims Hpos) as Hn.
    rewrite flatten_batch_eq.
    + rewrite numerator_elements_positive by done. cbv zeta.
      destruct (Z.eqb_spec (product dims) 0); [lia|]. eauto.
    + constructor; [done|]. by apply valid_shape_positive.
    + by rewrite numerator_elements_positive.
  - intros rest Hvalid Hin.
    rewrite flatten_batch_eq.
    + rewrite numerator_product_unknown by done. cbn. eauto.
    + by constructor.
    + rewrite numerator_product_unknown by done. lia.
Qed.

Lemma flatten_preserve_batch_witness :
  valid_dim None /\
  exists pieces,
    flatten (None :: map Some [3; 7]) true
    = Return (TfReshape pieces [None; Some (product [3; 7])]).
Proof.
  split; [exact I|].
  apply (proj1 (flatten_preserve_batch None I) [3; 7]).
  - repeat constructor; lia.
  - vm_compute. discriminate.
Defined.

(** X14: [flatten] without the batch dimension gives the rank-1 shape of
    the product of all dimensions when they are all known and positive
    (the product up to 2^53; an empty shape flattens to [1]), and a
    rank-1 shape of unknown size when a dimension is unknown. *)
Theorem flatten_all :
  (forall dims,
     Forall (fun x => 0 < x) dims ->
     product dims <= 2 ^ 53 ->
     flatten (map Some dims) false
     = Return (TfReshape [TfConstant [product dims]] [Some (product dims)])) /\
  (forall old_shape,
     valid_shape old_shape ->
     None ∈ old_shape ->
     flatten old_shape false = Return (TfReshape [TfConstant [-1]] [None])).
Proof.
  split.
  - intros dims Hpos Hbound.
    pose proof (product_pos dims Hpos) as Hn.
    rewrite flatten_all_eq.
    + rewrite numerator_elements_positive by done. cbv zeta.
      by destruct (Z.eqb_spec (product dims) 0); [lia|].
    + by apply valid_shape_positive.
    + by rewrite numerator_elements_positive.
  - intros old_shape Hvalid Hin.
    rewrite flatten_all_eq.
    + by rewrite numerator_product_unknown.
    + done.
    + rewrite numerator_product_unknown by done. lia.
Qed.

Lemma flatten_all_witness :
  flatten (map Some [2; 3; 7]) false
  = Return (TfReshape [TfConstant [product [2; 3; 7]]] [Some (product [2; 3; 7])]).
Proof.
  apply (proj1 flatten_all [2; 3; 7]).
  - repeat constructor; lia.
  - vm_compute. discriminate.
Defined.

Lemma product_singleton (x : Z) : product [x] = x.
Proof. rewrite product_cons, product_nil. lia. Qed.

Lemma flattened_size (n : Z) :
  0 <= n ->
  product (map numerator_element [if n =? 0 then None else Some n]) = n.
Proof.
  intros Hn. destruct (Z.eqb_spec n 0) as [->|H0]; cbn [map]; rewrite product_singleton.
  - done.
  - cbn. by destruct (Z.eqb_spec n 0).
Qed.

(** X15: flattening is idempotent: applied to the shape a [flatten] has
    set, [flatten] asks for the same shape tensor and sets the same
    shape again (the shape valid, the flattened size up to 2^53). *)
Theorem flatten_idempotent (old_shape : list (option Z)) (preserve_batch : bool)
    (pieces : list shape_piece) (static : list (option Z)) :
  valid_shape old_shape ->
  product (map numerator_element
               (if preserve_batch then tail old_shape else old_shape)) <= 2 ^ 53 ->
  flatten old_shape preserve_batch = Return (TfReshape pieces static) ->
  flatten static preserve_batch = Return (TfReshape pieces static).
Proof.
  intros Hvalid Hbound Hflat. destruct preserve_batch.
  - destruct old_shape as [|d0 rest]; [discriminate|]. cbn [tail] in Hbound.
    rewrite flatten_batch_eq in Hflat by done. cbv zeta in Hflat.
    inversion Hvalid as [|? ? Hd0 Hrest]; subst.
    pose proof (product_numerator_nonneg rest Hrest) as Hnn.
    set (n := product (map numerator_element rest)) in *. clearbody n.
    injection Hflat as <- <-.
    rewrite flatten_batch_eq; rewrite ?flattened_size; try done.
    constructor; [done|]. constructor; [|constructor].
    destruct (Z.eqb_spec n 0); cbn; [done|lia].
  - rewrite flatten_all_eq in Hflat by done. cbv zeta in Hflat.
    pose proof (product_numerator_nonneg old_shape Hvalid) as Hnn.
    set (n := product (map numerator_element old_shape)) in *. clearbody n.
    injection Hflat as <- <-.
    rewrite flatten_all_eq; rewrite ?flattened_size; try done.
    constructor; [|constructor].
    destruct (Z.eqb_spec n 0); cbn; [done|lia].
Qed.

Lemma flatten_idempotent_witness :
  let static := [None; Some 21] in
  let pieces := [TfGatherShape 0; TfConstant [21]] in
  flatten [None; Some 3; Some 7] true = Return (TfReshape pieces static) /\
  flatten static true = Return (TfReshape pieces static).
Proof.
  split; [reflexivity|].
  apply (flatten_idempotent [None; Some 3; Some 7] true).
  - repeat constructor; cbn; lia.
  - vm_compute. discriminate.
  - reflexivity.
Defined.

(** ** Reshaping to the same shape *)

Lemma product_ones (l : list Z) :
  Forall (fun x => x = 1) l -> product l = 1.
Proof.
  induction 1 as [|x l -> _ IH]; [done|]. rewrite product_cons, IH. lia.
Qed.

Lemma explicit_ints_replicate_same (n : nat) :
  explicit_ints (replicate n DIM_SAME) = [].
Proof. induction n as [|n IH]; [done|]. cbn [replicate]. by rewrite explicit_ints_cons. Qed.

Lemma count_wildcards_replicate_same (n : nat) :
  count_wildcards (replicate n DIM_SAME) = 0%nat.
Proof. induction n as [|n IH]; [done|]. cbn. exact IH. Qed.

(** X16: a spec of as many copy-markers as the input has dimensions
    (such as '___' for rank 3) is accepted for every valid shape, known
    or not, and [reshape] sets the input shape again. *)
Theorem reshape_all_same (old_shape : list (option Z)) (kind : seq_kind) :
  valid_shape old_shape ->
  exists pieces,
    reshape old_shape (ShapeSpec kind (replicate (length old_shape) DIM_SAME))
    = Return (TfReshape pieces old_shape).
Proof.
  intros Hvalid.
  set (items := replicate (length old_shape) DIM_SAME).
  assert (forall j, (j < length old_shape)%nat -> items !! j = Some DIM_SAME)
    as Hitems.
  { intros j Hj. by apply lookup_replicate_2. }
  assert (_infer_unknown_dims old_shape (ShapeSpec kind items)
          = Return (imap (resolve_entry old_shape) items)) as Hinf.
  { unfold _infer_unknown_dims. cbn [spec_items].
    rewrite run_loop_in_range.
    2: { intros j Hj. by apply lookup_replicate in Hj as [_ Hj]. }
    cbn [bind].
    assert (numerator (loop_result old_shape items) = 1) as Hn.
    { unfold numerator. cbn [numerator_elements loop_result].
      apply product_ones, Forall_lookup. intros j x Hx.
      unfold remaining_elements in Hx. rewrite list_lookup_imap in Hx.
      destruct (old_shape !! j) as [d|] eqn:Hd; [|done]. cbn in Hx.
      apply lookup_lt_Some in Hd.
      unfold same_at in Hx. rewrite (Hitems j Hd) in Hx. by injection Hx. }
    assert (denominator (loop_result old_shape items) = 1) as Hd.
    { cbn [denominator loop_result]. unfold items.
      by rewrite explicit_ints_replicate_same. }
    assert (unknowns (loop_result old_shape items) = 0%nat) as Hu.
    { cbn [unknowns loop_result]. apply count_wildcards_replicate_same. }
    unfold finish. rewrite Hn, Hd, Hu. reflexivity. }
  destruct (reshape_of_inferred _ _ _ Hinf) as (pieces & Hr & _).
  exists pieces. rewrite Hr. do 2 f_equal.
  apply list_eq. intros j.
  rewrite list_lookup_fmap, list_lookup_imap.
  destruct (old_shape !! j) as [d|] eqn:Hd.
  - rewrite (Hitems j) by (by apply lookup_lt_Some in Hd). cbn. rewrite Hd.
    destruct d as [v|]; cbn; [|done].
    assert (0 <= v) as Hv.
    { by apply (proj1 (Forall_lookup _ _) Hvalid j (Some v)). }
    destruct (Z.eqb_spec v (-1)); [lia|done].
  - unfold items.
    rewrite (proj1 (lookup_replicate_None _ _ _)); [done|].
    by apply lookup_ge_None.
Qed.

Lemma reshape_all_same_witness :
  let old_shape := [None; Some 3; Some 7] in
  valid_shape old_shape /\
  exists pieces,
    reshape old_shape (ShapeSpec PyList (replicate (length old_shape) DIM_SAME))
    = Return (TfReshape pieces old_shape).
Proof.
  assert (valid_shape [None; Some 3; Some 7]) as H
    by (repeat constructor; cbn; lia).
  split; [exact H|].
  exact (reshape_all_same [None; Some 3; Some 7] PyList H).
Defined.

(** ** Reshaping between known shapes *)

Lemma remaining_elements_no_same (dims : list Z) (targets : list Z) :
  Forall (fun x => 0 < x) dims ->
  remaining_elements (map Some dims) (map SpecInt targets) = dims.
Proof.
  intros Hpos. unfold remaining_elements. apply list_eq. intros j.
  rewrite list_lookup_imap.
  change (map Some dims) with (Some <$> dims). rewrite list_lookup_fmap.
  destruct (dims !! j) as [x|] eqn:Hx; [|done]. cbn.
  assert (same_at (map SpecInt targets) j = false) as ->.
  { apply same_at_false.
    change (map SpecInt targets) with (SpecInt <$> targets).
    rewrite list_lookup_fmap. by destruct (targets !! j). }
  assert (0 < x) by (by apply (proj1 (Forall_lookup _ _) Hpos j x)).
  destruct (Z.eqb_spec x 0); [lia|done].
Qed.

Lemma explicit_ints_positive (targets : list Z) :
  Forall (fun x => 0 < x) targets ->
  explicit_ints (map SpecInt targets) = targets.
Proof.
  induction 1 as [|x l Hx _ IH]; [done|]. cbn [map].
  rewrite explicit_ints_cons, IH. destruct (Z.eqb_spec x (-1)); [lia|done].
Qed.

Lemma count_wildcards_positive (targets : list Z) :
  Forall (fun x => 0 < x) targets ->
  count_wildcards (map SpecInt targets) = 0%nat.
Proof.
  induction 1 as [|x l Hx _ IH]; [done|]. cbn.
  destruct (Z.eqb_spec x (-1)); [lia|]. exact IH.
Qed.

Lemma resolve_entries_ints (old_shape : list (option Z)) (targets : list Z) :
  imap (resolve_entry old_shape) (map SpecInt targets) = map ResInt targets.
Proof.
  apply list_eq. intros j.
  change (map SpecInt targets) with (SpecInt <$> targets).
  change (map ResInt targets) with (ResInt <$> targets).
  rewrite list_lookup_imap, !list_lookup_fmap. by destruct (targets !! j).
Qed.

Lemma static_dims_positive (targets : list Z) :
  Forall (fun x => 0 < x) targets ->
  map static_dim (map ResInt targets) = map Some targets.
Proof.
  induction 1 as [|x l Hx _ IH]; [done|]. cbn [map]. rewrite IH. cbn.
  destruct (Z.eqb_spec x (-1)); [lia|done].
Qed.

(** X17: between fully known shapes of positive dimensions, a reshape to
    explicit integers is accepted exactly when the two products are
    equal: then [reshape] sets the requested shape, and otherwise it
    raises the size-mismatch [ValueError]. *)
Theorem reshape_between_known_shapes (dims targets : list Z) (kind : seq_kind) :
  Forall (fun x => 0 < x) dims ->
  Forall (fun x => 0 < x) targets ->
  (product dims = product targets ->
   exists pieces,
     reshape (map Some dims) (ShapeSpec kind (map SpecInt targets))
     = Return (TfReshape pieces (map Some targets))) /\
  (product dims <> product targets ->
   reshape (map Some dims) (ShapeSpec kind (map SpecInt targets))
   = Raise (ValueError CannotBeReshaped)).
Proof.
  intros Hdims Htargets.
  pose proof (product_pos dims Hdims) as Hn.
  pose proof (product_pos targets Htargets) as Hd.
  assert (_infer_unknown_dims (map Some dims) (ShapeSpec kind (map SpecInt targets))
          = finish (ShapeSpec kind (map SpecInt targets))
              (LoopState dims (product targets) 0 (map ResInt targets))) as Hinf.
  { unfold _infer_unknown_dims. cbn [spec_items].
    rewrite run_loop_in_range.
    - cbn [bind]. unfold loop_result.
      by rewrite remaining_elements_no_same, explicit_ints_positive,
        count_wildcards_positive, resolve_entries_ints.
    - intros j Hj. change (map SpecInt targets) with (SpecInt <$> targets) in Hj.
      rewrite list_lookup_fmap in Hj. by destruct (targets !! j). }
  split.
  - intros Heq.
    assert (_infer_unknown_dims (map Some dims)
              (ShapeSpec kind (map SpecInt targets))
            = Return (map ResInt targets)) as Hret.
    { rewrite Hinf. unfold finish, numerator, py_mod.
      cbn [numerator_elements denominator unknowns result Nat.ltb Nat.leb].
      rewrite Heq. destruct (Z.eqb_spec (product targets) 0); [lia|].
      cbn [bind]. rewrite Z_mod_same_full. cbn [Z.eqb negb Nat.eqb andb].
      rewrite Z.eqb_refl. cbn [negb]. rewrite !andb_false_r. done. }
    destruct (reshape_of_inferred _ _ _ Hret) as (pieces & Hr & _).
    exists pieces. by rewrite Hr, static_dims_positive.
  - intros Hne. unfold reshape. rewrite Hinf.
    unfold finish, numerator, py_mod.
    cbn [numerator_elements denominator unknowns result Nat.ltb Nat.leb].
    destruct (Z.eqb_spec (product targets) 0); [lia|]. cbn [bind].
    destruct (Z.eqb_spec (product dims mod product targets) 0); cbn [negb bind];
      [|done].
    destruct (Z.ltb_spec 0 (product dims)); [|lia].
    destruct (Z.eqb_spec (product dims) (product targets)); [lia|]. done.
Qed.

Lemma reshape_between_known_shapes_witness :
  Forall (fun x => 0 < x) [4; 6] /\
  Forall (fun x => 0 < x) [2; 3; 4] /\
  product [4; 6] = product [2; 3; 4] /\
  exists pieces,
    reshape (map Some [4; 6]) (ShapeSpec PyList (map SpecInt [2; 3; 4]))
    = Return (TfReshape pieces (map Some [2; 3; 4])).
Proof.
  assert (Forall (fun x => 0 < x) [4; 6]) as H1 by (repeat constructor; lia).
  assert (Forall (fun x => 0 < x) [2; 3; 4]) as H2 by (repeat constructor; lia).
  split; [exact H1|]. split; [exact H2|]. split; [reflexivity|].
  apply (proj1 (reshape_between_known_shapes [4; 6] [2; 3; 4] PyList H1 H2)).
  reflexivity.
Defined.

(** ** More on [split] and [unzip] *)

(** X19: when [unzip] (or [split]) goes through, [split_dim] is below the
    rank, the dimension there is known and a multiple of the nonzero
    [num_splits], and that known size is what [functions.unzip] is
    given. *)
Theorem unzip_passes_known_size (shape : list (option Z))
    (split_dim num_splits : Z) (call : split_call) :
  unzip shape split_dim num_splits = Return call ->
  exists v,
    call = FunctionsUnzip split_dim (Some v) num_splits /\
    split shape split_dim num_splits = Return (TfSplit split_dim num_splits) /\
    getitem_int shape split_dim = Return (Some v) /\
    split_dim < Z.of_nat (length shape) /\
    num_splits <> 0 /\
    v mod num_splits = 0.
Proof.
  unfold unzip, split, _check_split_dims, py_mod.
  destruct (Z.leb_spec (Z.of_nat (length shape)) split_dim) as [Hge|Hlt]; [done|].
  destruct (getitem_int shape split_dim) as [[v|]|err] eqn:Hd; cbn [bind]; try done.
  destruct (Z.eqb_spec num_splits 0) as [Hn|Hn]; cbn [bind]; [done|].
  destruct (Z.eqb_spec (v mod num_splits) 0) as [Hm|Hm]; cbn [negb bind]; [|done].
  intros [= <-]. by exists v.
Qed.

Lemma unzip_passes_known_size_witness :
  let shape := [Some 4; Some 6] in
  unzip shape (-1) 3 = Return (FunctionsUnzip (-1) (Some 6) 3) /\
  exists v,
    FunctionsUnzip (-1) (Some 6) 3 = FunctionsUnzip (-1) (Some v) 3 /\
    split shape (-1) 3 = Return (TfSplit (-1) 3) /\
    getitem_int shape (-1) = Return (Some v) /\
    -1 < Z.of_nat (length shape) /\
    3 <> 0 /\
    v mod 3 = 0.
Proof.
  split; [reflexivity|].
  apply (unzip_passes_known_size [Some 4; Some 6] (-1) 3). reflexivity.
Defined.

(** X20: a negative [split_dim] counts from the end: down to minus the
    rank the check is the one of the dimension [rank + split_dim], and
    below that it ends in the [IndexError] of [shape[split_dim]]. *)
Theorem negative_split_dim (shape : list (option Z)) (split_dim num_splits : Z) :
  split_dim < 0 ->
  _check_split_dims num_splits split_dim shape =
  if - Z.of_nat (length shape) <=? split_dim then
    _check_split_dims num_splits (Z.of_nat (length shape) + split_dim) shape
  else Raise IndexError.
Proof.
  intros Hneg. unfold _check_split_dims.
  destruct (Z.leb_spec (Z.of_nat (length shape)) split_dim); [lia|].
  unfold getitem_int at 1.
  destruct (Z.leb_spec 0 split_dim); [lia|].
  destruct (Z.leb_spec (- Z.of_nat (length shape)) split_dim) as [Hin|Hout].
  - destruct (Z.leb_spec 0 (Z.of_nat (length shape) + split_dim)); [|lia].
    destruct (Z.leb_spec (Z.of_nat (length shape))
                (Z.of_nat (length shape) + split_dim)); [lia|].
    unfold getitem_int.
    by destruct (Z.leb_spec 0 (Z.of_nat (length shape) + split_dim)); [|lia].
  - by destruct (Z.leb_spec 0 (Z.of_nat (length shape) + split_dim)); [lia|].
Qed.

Lemma negative_split_dim_witness :
  -1 < 0 /\
  _check_split_dims 3 (-1) [Some 4; Some 6]
  = _check_split_dims 3 1 [Some 4; Some 6].
Proof.
  split; [reflexivity|].
  apply (negative_split_dim [Some 4; Some 6] (-1) 3). reflexivity.
Defined.

(** ** The size is preserved through a wildcard *)

Lemma wildcard_factors_none (q : Z) (items : list spec_entry) :
  count_wildcards items = 0%nat -> product (wildcard_factors q items) = 1.
Proof.
  induction items as [|s items IH]; [done|].
  cbn [count_wildcards wildcard_factors map]. fold (wildcard_factors q items).
  rewrite product_cons. destruct (is_wildcard s); [lia|]. intros H.
  rewrite IH by lia. lia.
Qed.

Lemma wildcard_factors_one (q : Z) (items : list spec_entry) :
  count_wildcards items = 1%nat -> product (wildcard_factors q items) = q.
Proof.
  induction items as [|s items IH]; [done|].
  cbn [count_wildcards wildcard_factors map]. fold (wildcard_factors q items).
  rewrite product_cons. destruct (is_wildcard s); intros H.
  - rewrite wildcard_factors_none by lia. lia.
  - rewrite IH by lia. lia.
Qed.

Lemma products_split_filled (q : Z) (items : list spec_entry) :
  forall (old_shape : list (option Z)) (u : nat -> Z),
    (forall j, same_at items j = true -> (j < length old_shape)%nat) ->
    valid_shape old_shape ->
    product (imap (filled_value q u old_shape) items)
    * product (known_remaining u old_shape items)
    = shape_product u old_shape * product (explicit_ints items)
      * product (wildcard_factors q items).
Proof.
  induction items as [|s items IH]; intros old_shape u Hrange Hvalid.
  - unfold known_remaining, shape_product.
    change (explicit_ints []) with (@nil Z). cbn [imap wildcard_factors map].
    rewrite product_nil.
    rewrite (imap_ext _ (dim_value u) old_shape); [lia|].
    intros j d _. unfold same_at. by rewrite lookup_nil.
  - rewrite explicit_ints_cons. cbn [wildcard_factors map].
    fold (wildcard_factors q items).
    destruct old_shape as [|d o].
    + assert (forall j, same_at items j = true -> (j < length (@nil (option Z)))%nat)
        as Hrange'.
      { intros j Hj. specialize (Hrange (S j)). rewrite same_at_cons in Hrange.
        specialize (Hrange Hj). cbn in Hrange. lia. }
      specialize (IH [] (u ∘ S) Hrange' Hvalid).
      unfold known_remaining, shape_product in *. cbn [imap] in *.
      rewrite product_nil in *. rewrite !product_cons.
      rewrite (imap_ext _ (filled_value q (u ∘ S) []) items) by done.
      set (R := product (imap (filled_value q (u ∘ S) []) items)) in *.
      set (D := product (explicit_ints items)) in *.
      set (W := product (wildcard_factors q items)) in *.
      assert (R = D * W) as HR by lia.
      destruct s as [| | |x].
      * specialize (Hrange 0%nat eq_refl). cbn in Hrange. lia.
      * unfold filled_value at 1. cbn. fold D. rewrite HR. ring.
      * unfold filled_value at 1. cbn. fold D. rewrite HR. ring.
      * unfold filled_value at 1. cbn.
        destruct (Z.eqb_spec x (-1)); rewrite ?product_cons; cbn; fold D;
          rewrite HR; ring.
    + inversion Hvalid as [|? ? Hd Ho]; subst.
      assert (forall j, same_at items j = true -> (j < length o)%nat) as Hrange'.
      { intros j Hj. specialize (Hrange (S j)). rewrite same_at_cons in Hrange.
        specialize (Hrange Hj). cbn in Hrange. lia. }
      specialize (IH o (u ∘ S) Hrange' Ho).
      unfold known_remaining, shape_product in *. cbn [imap].
      rewrite !product_cons.
      rewrite (imap_ext _ (filled_value q (u ∘ S) o) items) by done.
      rewrite (imap_ext ((fun j d0 => if same_at (s :: items) j then 1
                                      else dim_value u j d0) ∘ S)
                        (fun j d0 => if same_at items j then 1
                                     else dim_value (u ∘ S) j d0) o) by done.
      change (imap (dim_value u ∘ S) o) with (imap (dim_value (u ∘ S)) o).
      set (R := product (imap (filled_value q (u ∘ S) o) items)) in *.
      set (N := product (imap _ o)) in *.
      set (P := product (imap (dim_value (u ∘ S)) o)) in *.
      set (D := product (explicit_ints items)) in *.
      set (W := product (wildcard_factors q items)) in *.
      assert (filled_value q u (d :: o) 0 DIM_SAME = dim_value u 0 d) as Hsame.
      { unfold filled_value. cbn. destruct d as [v|]; cbn; [|done].
        cbn in Hd. destruct (Z.eqb_spec v (-1)); [lia|done]. }
      destruct s as [| | |x].
      * rewrite Hsame. unfold same_at. cbn. fold D.
        transitivity (dim_value u 0 d * (R * N)); [ring|]. rewrite IH. ring.
      * unfold filled_value at 1. unfold same_at. cbn. fold D.
        transitivity (q * dim_value u 0 d * (R * N)); [ring|]. rewrite IH. ring.
      * unfold filled_value at 1. unfold same_at. cbn. fold D.
        transitivity (q * dim_value u 0 d * (R * N)); [ring|]. rewrite IH. ring.
      * unfold filled_value at 1. unfold same_at. cbn.
        destruct (Z.eqb_spec x (-1)) as [->|Hx]; rewrite ?product_cons; fold D;
          cbn [res_value].
        -- transitivity (q * dim_value u 0 d * (R * N)); [ring|]. rewrite IH. ring.
        -- transitivity (x * dim_value u 0 d * (R * N)); [ring|]. rewrite IH. ring.
Qed.

(** X21: with one wildcard, on a valid input shape whose dimensions
    outside the copied positions are all known and positive, the list
    [_infer_unknown_dims] returns has the product of the input
    dimensions: the wildcard takes up exactly what the other entries
    leave (for a wildcard value up to 2^53 in magnitude, and whatever
    sizes [u] the copied unknown dimensions have). *)
Theorem product_preserved_through_wildcard (old_shape : list (option Z))
    (spec : shape_spec) (res : list res_entry) (u : nat -> Z) :
  valid_shape old_shape ->
  count_wildcards (spec_items spec) = 1%nat ->
  (forall j d, old_shape !! j = Some d ->
               spec_items spec !! j <> Some DIM_SAME ->
               exists v, d = Some v /\ 0 < v) ->
  Z.abs (product (remaining_elements old_shape (spec_items spec))
         / product (explicit_ints (spec_items spec))) <= 2 ^ 53 ->
  _infer_unknown_dims old_shape spec = Return res ->
  resolved_product u res = shape_product u old_shape.
Proof.
  intros Hvalid Hone Hknown Hbound Hres. unfold _infer_unknown_dims in Hres.
  apply bind_Return in Hres as (st & Hrun & Hfin).
  apply run_loop_Return in Hrun as [-> Hrange].
  set (items := spec_items spec) in *.
  assert (known_remaining u old_shape items = remaining_elements old_shape items)
    as Hrem.
  { apply imap_ext. intros j d Hj.
    destruct (same_at items j) eqn:Hs; [done|].
    apply same_at_false in Hs. destruct (Hknown j d Hj Hs) as (v & -> & Hv).
    cbn. destruct (Z.eqb_spec v 0); [lia|done]. }
  assert (0 < product (remaining_elements old_shape items)) as Hpos.
  { apply product_pos, Forall_lookup. intros j x Hx.
    unfold remaining_elements in Hx. rewrite list_lookup_imap in Hx.
    destruct (old_shape !! j) as [d|] eqn:Hj; [|done]. cbn in Hx.
    injection Hx as <-.
    destruct (same_at items j) eqn:Hs; [lia|].
    apply same_at_false in Hs. destruct (Hknown j d Hj Hs) as (v & -> & Hv).
    cbn. destruct (Z.eqb_spec v 0); lia. }
  apply finish_Return in Hfin as (_ & Hd & Hm & _ & Hcase).
  unfold numerator in Hm, Hcase.
  cbn [numerator_elements denominator unknowns result loop_result] in Hd, Hm, Hcase.
  destruct Hcase as [[[H|H] _]|(_ & _ & q & Hq & ->)]; [lia|fold items in H; lia|].
  unfold numerator in Hq. cbn [numerator_elements denominator loop_result] in Hq.
  rewrite int_true_div_exact in Hq by done. injection Hq as <-.
  set (n := product (remaining_elements old_shape items)) in *.
  set (dn := product (explicit_ints items)) in *.
  assert (n = dn * (n / dn)) as Hdiv by (by apply Z_div_exact_full_2).
  assert (resolved_product u (map (fill_unknown (n / dn))
                                  (imap (resolve_entry old_shape) items))
          = product (imap (filled_value (n / dn) u old_shape) items)) as ->.
  { unfold resolved_product. f_equal. apply list_eq; intros j.
    rewrite list_lookup_imap.
    change (map ?f ?l) with (f <$> l). rewrite list_lookup_fmap.
    rewrite !list_lookup_imap. by destruct (items !! j). }
  pose proof (products_split_filled (n / dn) items old_shape u) as Hsplit.
  rewrite Hrem, wildcard_factors_one in Hsplit by done. fold n dn in Hsplit.
  apply (Z.mul_reg_r _ _ n); [lia|].
  rewrite Hsplit.
  - rewrite <- Z.mul_assoc, <- Hdiv. done.
  - intros j Hj. apply Hrange. by apply same_at_true.
  - done.
Qed.

Lemma product_preserved_through_wildcard_witness :
  let old_shape := [None; Some 4; Some 6] in
  let spec := ShapeSpec PyList [DIM_SAME; SpecInt 3; DIM_REST] in
  let u := fun _ : nat => 32 in
  _infer_unknown_dims old_shape spec = Return [ResSame; ResInt 3; ResInt 8] /\
  resolved_product u [ResSame; ResInt 3; ResInt 8] = shape_product u old_shape.
Proof.
  split; [reflexivity|].
  apply (product_preserved_through_wildcard [None; Some 4; Some 6]
           (ShapeSpec PyList [DIM_SAME; SpecInt 3; DIM_REST])).
  - repeat constructor; cbn; lia.
  - reflexivity.
  - intros [|[|[|j]]] d Hj Hs; cbn in Hj, Hs; try done.
    + injection Hj as <-. exists 4. split; [reflexivity|lia].
    + injection Hj as <-. exists 6. split; [reflexivity|lia].
  - vm_compute. discriminate.
  - reflexivity.
Defined.

(** X22: a list and a tuple holding the same entries are resolved alike,
    result and exception, unless they hold more than one wildcard. *)
Theorem spec_kind_is_irrelevant (old_shape : list (option Z))
    (items : list spec_entry) (kind kind' : seq_kind) :
  (count_wildcards items <= 1)%nat ->
  _infer_unknown_dims old_shape (ShapeSpec kind items)
  = _infer_unknown_dims old_shape (ShapeSpec kind' items).
Proof.
  intros Hc. unfold _infer_unknown_dims. cbn [spec_items].
  rewrite run_loop_eq.
  destruct (first_out_of_range _ _ _); cbn [bind]; [done|].
  unfold finish. cbn [unknowns loop_result].
  by destruct (Nat.ltb_spec 1 (count_wildcards items)); [lia|].
Qed.

Lemma spec_kind_is_irrelevant_witness :
  (count_wildcards [DIM_SAME; DIM_REST] <= 1)%nat /\
  _infer_unknown_dims [None; Some 3; Some 7] (ShapeSpec PyList [DIM_SAME; DIM_REST])
  = _infer_unknown_dims [None; Some 3; Some 7] (ShapeSpec PyTuple [DIM_SAME; DIM_REST]).
Proof.
  assert (count_wildcards [DIM_SAME; DIM_REST] <= 1)%nat as H by (cbn; lia).
  split; [exact H|].
  exact (spec_kind_is_irrelevant [None; Some 3; Some 7] [DIM_SAME; DIM_REST]
           PyList PyTuple H).
Defined.
